(** * PyLoxone: the MiniServer session manager

    A shallow embedding of [custom_components/loxone/miniserver.py].

    Python values are a small inductive universe (the JSON-like values the
    structure document and the bus payloads are made of, floats left out),
    exceptions are classes with their method resolution order, and a method
    of [MiniServer] is a computation over the object's fields and the
    chronological record of the calls it makes to its collaborators (the
    configuration fetcher [LoxApp], the websocket transport [LoxWs], the
    logger and [traceback]).  Coroutines run to completion: an [await] is
    the call it awaits. *)

From Stdlib Require Import ZArith List String Ascii Bool.
From Stdlib Require Import DecimalString.
From Stdlib Require DecimalPos DecimalZ.
Import ListNotations.
Local Open Scope string_scope.
Local Open Scope Z_scope.

(** ** Exceptions *)

Module Exn.

(** The built-in exception classes the module can meet. *)
Inductive cls : Type :=
| BaseException | Exception
| AttributeError | TypeError
| LookupError | KeyError | IndexError
| ValueError | UnicodeError
| OSError | TimeoutError
| ConnectionError | ConnectionRefusedError | ConnectionResetError
| BrokenPipeError | ConnectionAbortedError
| CancelledError.

Definition eqb (a b : cls) : bool :=
  match a, b with
  | BaseException, BaseException | Exception, Exception
  | AttributeError, AttributeError | TypeError, TypeError
  | LookupError, LookupError | KeyError, KeyError
  | IndexError, IndexError | ValueError, ValueError
  | UnicodeError, UnicodeError | OSError, OSError
  | TimeoutError, TimeoutError | ConnectionError, ConnectionError
  | ConnectionRefusedError, ConnectionRefusedError
  | ConnectionResetError, ConnectionResetError
  | BrokenPipeError, BrokenPipeError
  | ConnectionAbortedError, ConnectionAbortedError
  | CancelledError, CancelledError => true
  | _, _ => false
  end.

(** The classes a class derives from, nearest first, itself excluded. *)
Definition bases (c : cls) : list cls :=
  match c with
  | BaseException => []
  | Exception | CancelledError => [BaseException]
  | AttributeError | TypeError | LookupError | ValueError | OSError =>
      [Exception; BaseException]
  | KeyError | IndexError => [LookupError; Exception; BaseException]
  | UnicodeError => [ValueError; Exception; BaseException]
  | TimeoutError | ConnectionError => [OSError; Exception; BaseException]
  | ConnectionRefusedError | ConnectionResetError
  | BrokenPipeError | ConnectionAbortedError =>
      [ConnectionError; OSError; Exception; BaseException]
  end.

(** [isinstance e c]: what an [except c] clause tests on a raised [e]. *)
Definition isinstance (e c : cls) : bool :=
  existsb (eqb c) (e :: bases e).

End Exn.

Definition exn : Type := Exn.cls.

(** The outcome of evaluating a Python expression. *)
Inductive Result (A : Type) : Type :=
| Ok (a : A)
| Raise (e : exn).
Arguments Ok {A} a.
Arguments Raise {A} e.

Definition rbind {A B} (r : Result A) (k : A -> Result B) : Result B :=
  match r with
  | Ok a => k a
  | Raise e => Raise e
  end.

(** [try: body / except: handler] with a bare [except], which catches
    every exception. *)
Definition try_except_all {A} (body : Result A) (handler : Result A)
  : Result A :=
  match body with
  | Ok a => Ok a
  | Raise _ => handler
  end.

(** ** Values *)

#[local] Unset Elimination Schemes.

Inductive PyVal : Type :=
| VNone
| VBool (b : bool)
| VInt (z : Z)
| VStr (s : string)
| VList (l : list PyVal)
| VDict (d : list (string * PyVal)).

#[local] Set Elimination Schemes.

(** A dict keeps its insertion order; a lookup finds the entry of a key. *)
Fixpoint dict_find (d : list (string * PyVal)) (k : string) : option PyVal :=
  match d with
  | [] => None
  | (k', v) :: r => if String.eqb k' k then Some v else dict_find r k
  end.

(** [d.get(k, default)] *)
Definition dict_get (d : list (string * PyVal)) (k : string) (default : PyVal)
  : PyVal :=
  match dict_find d k with
  | Some v => v
  | None => default
  end.

(** [v[k]] for a string [k]. *)
Definition getitem (v : PyVal) (k : string) : Result PyVal :=
  match v with
  | VDict d =>
      match dict_find d k with
      | Some x => Ok x
      | None => Raise Exn.KeyError
      end
  | _ => Raise Exn.TypeError
  end.

(** Truth value testing: [bool(v)]. *)
Definition truthy (v : PyVal) : bool :=
  match v with
  | VNone => false
  | VBool b => b
  | VInt z => negb (z =? 0)
  | VStr s => negb (String.eqb s EmptyString)
  | VList l => match l with [] => false | _ => true end
  | VDict d => match d with [] => false | _ => true end
  end.

(** [v == n] for an integer literal [n]; a bool compares as 0 or 1. *)
Definition eq_int (v : PyVal) (n : Z) : bool :=
  match v with
  | VInt z => z =? n
  | VBool b => (if b then 1 else 0) =? n
  | _ => false
  end.

(** [v == s] for a string literal [s]. *)
Definition eq_str (v : PyVal) (s : string) : bool :=
  match v with
  | VStr t => String.eqb t s
  | _ => false
  end.

(** *** [str] and [repr] *)

Definition hex_digit (n : N) : ascii :=
  match n with
  | 0 => "0" | 1 => "1" | 2 => "2" | 3 => "3" | 4 => "4" | 5 => "5"
  | 6 => "6" | 7 => "7" | 8 => "8" | 9 => "9" | 10 => "a" | 11 => "b"
  | 12 => "c" | 13 => "d" | 14 => "e" | _ => "f"
  end%N%char.

(** A character is a code point below 256.  The ones [repr] writes as
    they are: the printable ones. *)
Definition printable (c : ascii) : bool :=
  let n := N_of_ascii c in
  ((32 <=? n) && (n <? 127) || (161 <=? n) && negb (n =? 173))%N.

Definition repr_char (quote : ascii) (c : ascii) : string :=
  if Ascii.eqb c quote || Ascii.eqb c "\"%char then
    String "\"%char (String c EmptyString)
  else if Ascii.eqb c (ascii_of_N 9) then "\t"
  else if Ascii.eqb c (ascii_of_N 10) then "\n"
  else if Ascii.eqb c (ascii_of_N 13) then "\r"
  else if printable c then String c EmptyString
  else
    let n := N_of_ascii c in
    String "\"%char (String "x"%char
      (String (hex_digit (n / 16)) (String (hex_digit (n mod 16)) EmptyString))).

Fixpoint has_char (c : ascii) (s : string) : bool :=
  match s with
  | EmptyString => false
  | String a r => Ascii.eqb a c || has_char c r
  end.

Definition dquote : ascii := ascii_of_N 34.
Definition squote : ascii := "'"%char.

Fixpoint repr_chars (quote : ascii) (s : string) : string :=
  match s with
  | EmptyString => EmptyString
  | String c r => (repr_char quote c ++ repr_chars quote r)%string
  end.

(** [repr] of a [str]: single quotes, unless the text has a single quote
    and no double quote. *)
Definition repr_str (s : string) : string :=
  let quote :=
    if has_char squote s && negb (has_char dquote s) then dquote else squote in
  String quote (repr_chars quote s ++ String quote EmptyString)%string.

(** [sep.join(parts)] *)
Fixpoint join (sep : string) (parts : list string) : string :=
  match parts with
  | [] => EmptyString
  | [p] => p
  | p :: r => (p ++ sep ++ join sep r)%string
  end.

(** The decimal digits of an integer, with a minus sign below zero. *)
Definition decimal (z : Z) : string := NilZero.string_of_int (Z.to_int z).

(** How many digits that takes, the sign not counted. *)
Definition digits (z : Z) : nat :=
  match Z.to_int z with
  | Decimal.Pos d | Decimal.Neg d => Decimal.nb_digits d
  end.

(** [sys.int_max_str_digits], as the interpreter sets it. *)
Definition int_max_str_digits : nat := 4300.

(** [str] of an [int]: its decimal text, and [ValueError] when that
    would take more digits than the interpreter's limit. *)
Definition str_int (z : Z) : Result string :=
  if Nat.ltb int_max_str_digits (digits z) then Raise Exn.ValueError
  else Ok (decimal z).

(** [f] on each item in turn, up to the first that raises. *)
Definition traverse {A B : Type} (f : A -> Result B)
  : list A -> Result (list B) :=
  fix go (l : list A) : Result (list B) :=
    match l with
    | [] => Ok []
    | x :: r =>
        rbind (f x) (fun y => rbind (go r) (fun ys => Ok (y :: ys)))
    end.

Fixpoint repr (v : PyVal) : Result string :=
  match v with
  | VNone => Ok "None"
  | VBool true => Ok "True"
  | VBool false => Ok "False"
  | VInt z => str_int z
  | VStr s => Ok (repr_str s)
  | VList l =>
      rbind (traverse repr l) (fun parts =>
      Ok ("[" ++ join ", " parts ++ "]")%string)
  | VDict d =>
      rbind (traverse
               (fun kv =>
                  rbind (repr (snd kv)) (fun text =>
                  Ok (repr_str (fst kv) ++ ": " ++ text)%string))
               d) (fun parts =>
      Ok ("{" ++ join ", " parts ++ "}")%string)
  end.

(** [str(v)]: a [str] is its own text, everything else prints as [repr]. *)
Definition str (v : PyVal) : Result string :=
  match v with
  | VStr s => Ok s
  | _ => repr v
  end.

(** The items a [for] loop draws from [v]: the elements of a list, the
    characters of a string, the keys of a dict; nothing else iterates. *)
Fixpoint chars (s : string) : list PyVal :=
  match s with
  | EmptyString => []
  | String c r => VStr (String c EmptyString) :: chars r
  end.

Definition iter (v : PyVal) : Result (list PyVal) :=
  match v with
  | VList l => Ok l
  | VStr s => Ok (chars s)
  | VDict d => Ok (map (fun kv => VStr (fst kv)) d)
  | _ => Raise Exn.TypeError
  end.

(** ** The objects *)

(** A callable handed over as a callback, known by its identity. *)
Definition Callback : Type := nat.

(** The configuration fetcher, [api.LoxApp]: the attributes this module
    writes and reads. *)
Module LoxApp.
Record t : Type := mk {
  lox_user : PyVal;
  lox_pass : PyVal;
  host : PyVal;
  port : PyVal;
  json : PyVal;
  url : PyVal
}.
End LoxApp.

(** The websocket transport, [api.LoxWs]: its constructor's arguments and
    the callback slot. *)
Module LoxWs.
Record t : Type := mk {
  user : PyVal;
  password : PyVal;
  host : PyVal;
  port : PyVal;
  loxconfig : PyVal;
  loxone_url : PyVal;
  message_call_back : option Callback
}.

Definition set_message_call_back (cb : Callback) (ws : t) : t :=
  mk (user ws) (password ws) (host ws) (port ws) (loxconfig ws)
     (loxone_url ws) (Some cb).
End LoxWs.

Module ConfigEntry.
Record t : Type := mk {
  options : list (string * PyVal);
  data : list (string * PyVal);
  unique_id : PyVal;
  entry_id : PyVal
}.
End ConfigEntry.

(** The fields [MiniServer.__init__] sets, [hass] apart: the bus and the
    registry behind it are reached through the record of calls. *)
Record MiniServer : Type := mkMiniServer {
  config_entry : ConfigEntry.t;
  lox_config : option LoxApp.t;
  api : option LoxWs.t;
  callback : option Callback;
  entities : list (string * PyVal);
  listeners : list PyVal
}.

(** [MiniServer.__init__] *)
Definition MiniServer_init (entry : ConfigEntry.t) : MiniServer :=
  {| config_entry := entry;
     lox_config := None;
     api := None;
     callback := None;
     entities := [];
     listeners := [] |}.

Definition set_lox_config (app : LoxApp.t) (ms : MiniServer) : MiniServer :=
  {| config_entry := config_entry ms;
     lox_config := Some app;
     api := api ms;
     callback := callback ms;
     entities := entities ms;
     listeners := listeners ms |}.

Definition set_api (ws : LoxWs.t) (ms : MiniServer) : MiniServer :=
  {| config_entry := config_entry ms;
     lox_config := lox_config ms;
     api := Some ws;
     callback := callback ms;
     entities := entities ms;
     listeners := listeners ms |}.

(** ** Identity accessors *)

(** [self.lox_config.json]: [None] has no attribute [json]. *)
Definition lox_config_json (ms : MiniServer) : Result PyVal :=
  match lox_config ms with
  | None => Raise Exn.AttributeError
  | Some app => Ok (LoxApp.json app)
  end.

Definition serial (ms : MiniServer) : Result PyVal :=
  try_except_all
    (rbind (lox_config_json ms) (fun doc =>
     rbind (getitem doc "msInfo") (fun info =>
     getitem info "serialNr")))
    (Ok VNone).

Definition name (ms : MiniServer) : Result PyVal :=
  try_except_all
    (rbind (lox_config_json ms) (fun doc =>
     rbind (getitem doc "msInfo") (fun info =>
     getitem info "msName")))
    (Ok VNone).

Definition software_version (ms : MiniServer) : Result PyVal :=
  try_except_all
    (rbind (lox_config_json ms) (fun doc =>
     rbind (getitem doc "softwareVersion") (fun comps =>
     rbind (iter comps) (fun xs =>
     rbind (traverse str xs) (fun parts =>
     Ok (VStr (join "." parts)))))))
    (Ok VNone).

Definition miniserver_type (ms : MiniServer) : Result PyVal :=
  try_except_all
    (rbind (lox_config_json ms) (fun doc =>
     rbind (getitem doc "msInfo") (fun info =>
     getitem info "miniserverType")))
    (Ok VNone).

(** A [MiniServer] whose fetcher holds the document [doc]. *)
Definition with_document (entry : ConfigEntry.t) (doc : PyVal) : MiniServer :=
  set_lox_config (LoxApp.mk VNone VNone VNone VNone doc VNone)
                 (MiniServer_init entry).

Definition no_entry : ConfigEntry.t := ConfigEntry.mk [] [] VNone VNone.

(** ** Collaborators and the record of calls *)

(** One device-registry entry, as [async_get_or_create] receives it. *)
Record DeviceEntry : Type := mkDeviceEntry {
  config_entry_id : PyVal;
  connections : list (string * PyVal);
  identifiers : list (string * PyVal);
  entry_name : PyVal;
  manufacturer : PyVal;
  sw_version : PyVal;
  model : PyVal
}.

(** What the module asks of the outside, in the order it asks. *)
Inductive Call : Type :=
| Call_getJson (app : LoxApp.t)
| Call_async_init (ws : LoxWs.t)
| Call_start
| Call_stop
| Call_send_websocket_command (device_uuid value : PyVal)
| Call_send_secured__websocket_command (device_uuid value code : PyVal)
| Call_async_fire (event_type : string) (message : PyVal)
| Call_async_get_or_create (entry : DeviceEntry)
| Call_logger_error (msg : string)
| Call_logger_debug (v : PyVal)
| Call_print_exc (e : exn).

(** The collaborators' side of each call: what it returns or raises, given
    everything that was called before.  [getJson] also leaves the fetcher
    object behind, with the document and the url it stored. *)
Record Env : Type := mkEnv {
  new_LoxApp : LoxApp.t;
  getJson : list Call -> LoxApp.t -> Result PyVal * LoxApp.t;
  async_init : list Call -> LoxWs.t -> Result PyVal;
  start : list Call -> LoxWs.t -> Result PyVal;
  stop : list Call -> LoxWs.t -> Result PyVal;
  send_websocket_command :
    list Call -> LoxWs.t -> PyVal -> PyVal -> Result PyVal;
  send_secured__websocket_command :
    list Call -> LoxWs.t -> PyVal -> PyVal -> PyVal -> Result PyVal
}.

(** ** Computations *)

Record World : Type := mkWorld {
  self : MiniServer;
  calls : list Call
}.

(** A method body: it ends in a value or an exception, and leaves the
    object and the record of calls as they were when it ended. *)
Definition M (A : Type) : Type := World -> Result A * World.

Definition ret {A} (a : A) : M A := fun w => (Ok a, w).

Definition raise {A} (e : exn) : M A := fun w => (Raise e, w).

Definition bind {A B} (c : M A) (k : A -> M B) : M B :=
  fun w =>
    match c w with
    | (Ok a, w') => k a w'
    | (Raise e, w') => (Raise e, w')
    end.

Notation "x <- c ;; k" := (bind c (fun x => k))
  (at level 61, c at next level, right associativity).
Notation "c ;;; k" := (bind c (fun _ => k))
  (at level 61, right associativity).

(** [try: body / except cls: handler] *)
Definition try_except {A} (body : M A) (cls : exn) (handler : exn -> M A)
  : M A :=
  fun w =>
    match body w with
    | (Ok a, w') => (Ok a, w')
    | (Raise e, w') =>
        if Exn.isinstance e cls then handler e w' else (Raise e, w')
    end.

Definition lift {A} (r : Result A) : M A := fun w => (r, w).

Definition get_self : M MiniServer := fun w => (Ok (self w), w).

Definition modify_self (f : MiniServer -> MiniServer) : M unit :=
  fun w => (Ok tt, mkWorld (f (self w)) (calls w)).

Definition emit (c : Call) : M unit :=
  fun w => (Ok tt, mkWorld (self w) (calls w ++ [c])).

(** A call to a collaborator: it is recorded, then answers. *)
Definition call {A} (c : Call) (answer : list Call -> Result A) : M A :=
  fun w => (answer (calls w), mkWorld (self w) (calls w ++ [c])).

(** [self.api], to call a method or set an attribute on: [None] has
    neither. *)
Definition self_api : M LoxWs.t :=
  fun w =>
    match api (self w) with
    | Some ws => (Ok ws, w)
    | None => (Raise Exn.AttributeError, w)
    end.

Definition self_lox_config : M LoxApp.t :=
  fun w =>
    match lox_config (self w) with
    | Some app => (Ok app, w)
    | None => (Raise Exn.AttributeError, w)
    end.

(** [mapping[key]] on a config entry's options or data. *)
Definition item (d : list (string * PyVal)) (k : string) : M PyVal :=
  match dict_find d k with
  | Some v => ret v
  | None => raise Exn.KeyError
  end.

(** [v.get(key, default)]: only a dict has [get]. *)
Definition get (v : PyVal) (k : string) (default : PyVal) : M PyVal :=
  match v with
  | VDict d => ret (dict_get d k default)
  | _ => raise Exn.AttributeError
  end.

(** [isinstance(v, dict)] *)
Definition isinstance_dict (v : PyVal) : bool :=
  match v with
  | VDict _ => true
  | _ => false
  end.

(** Lists and dicts cannot be members of a set. *)
Definition hashable (v : PyVal) : bool :=
  match v with
  | VList _ | VDict _ => false
  | _ => true
  end.

(** The set display [{(tag, v)}]. *)
Definition set_of_pair (tag : string) (v : PyVal)
  : M (list (string * PyVal)) :=
  if hashable v then ret [(tag, v)] else raise Exn.TypeError.

(** [homeassistant.const] *)
Definition CONF_HOST : string := "host".
Definition CONF_PASSWORD : string := "password".
Definition CONF_PORT : string := "port".
Definition CONF_USERNAME : string := "username".

Definition CONNECTION_NETWORK_MAC : string := "mac".

Module Event.
Record t : Type := mk {
  event_type : string;
  data : PyVal
}.
End Event.

Module ServiceCall.
Record t : Type := mk {
  data : PyVal
}.
End ServiceCall.

(** Modelled from the spec: [helpers.get_miniserver_type], which is not
    part of this module.  It classifies the integer against a fixed
    enumerated mapping of known model codes; whatever is not a known code
    gets the fallback label. *)
Fixpoint classify (known : list (Z * string)) (fallback : string) (code : Z)
  : string :=
  match known with
  | [] => fallback
  | (c, label) :: r => if c =? code then label else classify r fallback code
  end.

Definition get_miniserver_type (known : list (Z * string)) (fallback : string)
  (t : PyVal) : PyVal :=
  match t with
  | VInt code => VStr (classify known fallback code)
  | _ => VStr fallback
  end.

(** ** The methods of [MiniServer] *)

Section Methods.

(** The names imported from [const.py]. *)
Variables ATTR_CODE ATTR_UUID ATTR_VALUE : string.
Variable DEFAULT : PyVal.
Variables DOMAIN EVENT SECUREDSENDDOMAIN SENDDOMAIN : string.

(** The mapping and the fallback label of [get_miniserver_type]. *)
Variable MINISERVER_TYPES : list (Z * string).
Variable UNKNOWN_TYPE : string.

Variable env : Env.

Definition connect_error : string := "Error connecting to loxone miniserver".

(** [self.config_entry.options[key]] *)
Definition option_item (key : string) : M PyVal :=
  ms <- get_self ;;
  item (ConfigEntry.options (config_entry ms)) key.

(** [self.lox_config.attr = v] *)
Definition set_lox_config_attr (upd : PyVal -> LoxApp.t -> LoxApp.t)
  (v : PyVal) : M unit :=
  app <- self_lox_config ;;
  modify_self (set_lox_config (upd v app)).

Definition upd_lox_user (v : PyVal) (a : LoxApp.t) : LoxApp.t :=
  LoxApp.mk v (LoxApp.lox_pass a) (LoxApp.host a) (LoxApp.port a)
            (LoxApp.json a) (LoxApp.url a).
Definition upd_lox_pass (v : PyVal) (a : LoxApp.t) : LoxApp.t :=
  LoxApp.mk (LoxApp.lox_user a) v (LoxApp.host a) (LoxApp.port a)
            (LoxApp.json a) (LoxApp.url a).
Definition upd_host (v : PyVal) (a : LoxApp.t) : LoxApp.t :=
  LoxApp.mk (LoxApp.lox_user a) (LoxApp.lox_pass a) v (LoxApp.port a)
            (LoxApp.json a) (LoxApp.url a).
Definition upd_port (v : PyVal) (a : LoxApp.t) : LoxApp.t :=
  LoxApp.mk (LoxApp.lox_user a) (LoxApp.lox_pass a) (LoxApp.host a) v
            (LoxApp.json a) (LoxApp.url a).

(** [await self.lox_config.getJson()] *)
Definition lox_config_getJson : M PyVal :=
  app <- self_lox_config ;;
  fun w =>
    let answer := getJson env (calls w) app in
    (fst answer,
     mkWorld (set_lox_config (snd answer) (self w))
             (calls w ++ [Call_getJson app])).

(** [await self.api.async_init()] *)
Definition api_async_init : M PyVal :=
  ws <- self_api ;;
  call (Call_async_init ws) (fun h => async_init env h ws).

(** [await self.api.start()] *)
Definition api_start : M PyVal :=
  ws <- self_api ;;
  call Call_start (fun h => start env h ws).

(** [await self.api.stop()] *)
Definition api_stop : M PyVal :=
  ws <- self_api ;;
  call Call_stop (fun h => stop env h ws).

(** [await self.api.send_websocket_command(device_uuid, value)] *)
Definition api_send_websocket_command (device_uuid value : PyVal)
  : M PyVal :=
  ws <- self_api ;;
  call (Call_send_websocket_command device_uuid value)
       (fun h => send_websocket_command env h ws device_uuid value).

(** [await self.api.send_secured__websocket_command(device_uuid, value,
    code)] *)
Definition api_send_secured__websocket_command
  (device_uuid value code : PyVal) : M PyVal :=
  ws <- self_api ;;
  call (Call_send_secured__websocket_command device_uuid value code)
       (fun h =>
          send_secured__websocket_command env h ws device_uuid value code).

(** The [try] block of [async_setup]: [Some v] when it ran into
    [return v], [None] when it ran to its end. *)
Definition async_setup_body : M (option PyVal) :=
  modify_self (set_lox_config (new_LoxApp env)) ;;;
  v <- option_item CONF_USERNAME ;; set_lox_config_attr upd_lox_user v ;;;
  v <- option_item CONF_PASSWORD ;; set_lox_config_attr upd_lox_pass v ;;;
  v <- option_item CONF_HOST ;; set_lox_config_attr upd_host v ;;;
  v <- option_item CONF_PORT ;; set_lox_config_attr upd_port v ;;;
  request_code <- lox_config_getJson ;;
  if eq_int request_code 200 || eq_str request_code "200" then
    user <- option_item CONF_USERNAME ;;
    password <- option_item CONF_PASSWORD ;;
    host <- option_item CONF_HOST ;;
    port <- option_item CONF_PORT ;;
    app <- self_lox_config ;;
    modify_self
      (set_api (LoxWs.mk user password host port
                         (LoxApp.json app) (LoxApp.url app) None)) ;;;
    res <- api_async_init ;;
    if negb (truthy res) || eq_int res (-1) then
      emit (Call_logger_error connect_error) ;;;
      ret (Some (VBool false))
    else
      ret None
  else
    emit (Call_logger_error connect_error) ;;;
    ret (Some (VBool false)).

Definition async_setup : M PyVal :=
  returned <-
    try_except async_setup_body Exn.ConnectionError
      (fun _ =>
         emit (Call_logger_error connect_error) ;;;
         ret (Some (VBool false))) ;;
  match returned with
  | Some v => ret v
  | None => ret (VBool true)
  end.

Definition shutdown (event : Event.t) : M PyVal :=
  api_stop ;;; ret VNone.

Definition async_set_callback (message_callback : Callback) : M PyVal :=
  ws <- self_api ;;
  modify_self (set_api (LoxWs.set_message_call_back message_callback ws)) ;;;
  ret VNone.

Definition start_loxone (event : Event.t) : M PyVal :=
  api_start ;;; ret VNone.

Definition stop_loxone (event : Event.t) : M PyVal :=
  r <- api_stop ;;
  emit (Call_logger_debug r) ;;;
  ret VNone.

Definition async_loxone_callback (message : PyVal) : M PyVal :=
  emit (Call_async_fire EVENT message) ;;;
  ret VNone.

(** The [try] block of [listen_loxone_send]. *)
Definition listen_loxone_send_body (event : Event.t) : M unit :=
  if String.eqb (Event.event_type event) SENDDOMAIN
     && isinstance_dict (Event.data event) then
    value <- get (Event.data event) ATTR_VALUE DEFAULT ;;
    device_uuid <- get (Event.data event) ATTR_UUID DEFAULT ;;
    api_send_websocket_command device_uuid value ;;;
    ret tt
  else if String.eqb (Event.event_type event) SECUREDSENDDOMAIN
          && isinstance_dict (Event.data event) then
    value <- get (Event.data event) ATTR_VALUE DEFAULT ;;
    device_uuid <- get (Event.data event) ATTR_UUID DEFAULT ;;
    code <- get (Event.data event) ATTR_CODE DEFAULT ;;
    api_send_secured__websocket_command device_uuid value code ;;;
    ret tt
  else
    ret tt.

Definition listen_loxone_send (event : Event.t) : M PyVal :=
  try_except (listen_loxone_send_body event) Exn.ValueError
    (fun e => emit (Call_print_exc e)) ;;;
  ret VNone.

Definition handle_websocket_command (call : ServiceCall.t) : M PyVal :=
  value <- get (ServiceCall.data call) ATTR_VALUE DEFAULT ;;
  device_uuid <- get (ServiceCall.data call) ATTR_UUID DEFAULT ;;
  api_send_websocket_command device_uuid value ;;;
  ret VNone.

(** The registry object [async_get_registry] hands out stays behind the
    record of calls: what is kept is what [async_get_or_create] is given. *)
Definition async_update_device_registry : M PyVal :=
  ms <- get_self ;;
  (* Host device *)
  host <- option_item CONF_HOST ;;
  conns <- set_of_pair CONNECTION_NETWORK_MAC host ;;
  emit (Call_async_get_or_create
          (mkDeviceEntry (ConfigEntry.entry_id (config_entry ms))
                         conns [] VNone VNone VNone VNone)) ;;;
  (* Miniserver service *)
  serial_ <- lift (serial ms) ;;
  ids <- set_of_pair DOMAIN serial_ ;;
  name_ <- lift (name ms) ;;
  sw <- lift (software_version ms) ;;
  type_ <- lift (miniserver_type ms) ;;
  emit (Call_async_get_or_create
          (mkDeviceEntry (ConfigEntry.entry_id (config_entry ms))
                         [] ids name_ (VStr "Loxone") sw
                         (get_miniserver_type MINISERVER_TYPES UNKNOWN_TYPE
                                              type_))) ;;;
  ret VNone.

(** The bus delivering a run of events to the subscribed handler, one
    after the other; an exception leaving the handler ends the run. *)
Fixpoint deliver (events : list Event.t) : M unit :=
  match events with
  | [] => ret tt
  | event :: rest => listen_loxone_send event ;;; deliver rest
  end.

End Methods.

(** ** Outcomes, in closed form *)

(** The structure document a [MiniServer] holds, if it holds a fetcher. *)
Definition document (ms : MiniServer) : option PyVal :=
  option_map LoxApp.json (lox_config ms).

(** The entry of [key] in [v], when [v] is a dict that has one. *)
Definition field (key : string) (v : PyVal) : option PyVal :=
  match v with
  | VDict d => dict_find d key
  | _ => None
  end.

Definition opt_bind {A B} (o : option A) (k : A -> option B) : option B :=
  match o with
  | Some a => k a
  | None => None
  end.

(** The value found at [document[outer][inner]], [VNone] when the path
    does not resolve. *)
Definition at_path (ms : MiniServer) (outer inner : string) : PyVal :=
  match opt_bind (opt_bind (document ms) (field outer)) (field inner) with
  | Some v => v
  | None => VNone
  end.

(** The dot-joined text of whatever iterates at
    [document["softwareVersion"]], [VNone] when nothing does or when an
    item of the list has no text. *)
Definition joined_version (ms : MiniServer) : PyVal :=
  match opt_bind (document ms) (field "softwareVersion") with
  | Some (VList l) =>
      match traverse str l with
      | Ok parts => VStr (join "." parts)
      | Raise _ => VNone
      end
  | Some (VStr s) =>
      VStr (join "." (map (fun c => String c EmptyString)
                          (list_ascii_of_string s)))
  | Some (VDict d) => VStr (join "." (map (fun kv => fst kv) d))
  | _ => VNone
  end.

(** An integer [str] gives a text for: no more digits than the limit. *)
Definition renderable (z : Z) : bool :=
  Nat.leb (digits z) int_max_str_digits.

(** All four options [async_setup] reads are there. *)
Definition configured (ms : MiniServer) : bool :=
  forallb
    (fun key =>
       match dict_find (ConfigEntry.options (config_entry ms)) key with
       | Some _ => true
       | None => false
       end)
    [CONF_USERNAME; CONF_PASSWORD; CONF_HOST; CONF_PORT].

Definition option_of (ms : MiniServer) (key : string) : PyVal :=
  dict_get (ConfigEntry.options (config_entry ms)) key VNone.

(** The fetcher as [async_setup] has filled it in when it calls
    [getJson]. *)
Definition fetcher (env : Env) (ms : MiniServer) : LoxApp.t :=
  LoxApp.mk (option_of ms CONF_USERNAME) (option_of ms CONF_PASSWORD)
            (option_of ms CONF_HOST) (option_of ms CONF_PORT)
            (LoxApp.json (new_LoxApp env)) (LoxApp.url (new_LoxApp env)).

(** The transport [async_setup] constructs from the options and from the
    fetcher [app] that [getJson] left. *)
Definition transport (ms : MiniServer) (app : LoxApp.t) : LoxWs.t :=
  LoxWs.mk (option_of ms CONF_USERNAME) (option_of ms CONF_PASSWORD)
           (option_of ms CONF_HOST) (option_of ms CONF_PORT)
           (LoxApp.json app) (LoxApp.url app) None.

(** The two send operations of the transport. *)
Definition is_send (c : Call) : bool :=
  match c with
  | Call_send_websocket_command _ _
  | Call_send_secured__websocket_command _ _ _ => true
  | _ => false
  end.

Definition sends (cs : list Call) : list Call := filter is_send cs.

(** The calls [listen_loxone_send] makes for [event] when the transport
    [ws] exists and [h] was called before: the send of a command whose
    payload is a dict, followed by [traceback.print_exc] when that send
    raised a [ValueError]; nothing for any other event. *)
Definition after_send (r : Result PyVal) : list Call :=
  match r with
  | Ok _ => []
  | Raise e => [Call_print_exc e]
  end.

Definition handled (ATTR_CODE ATTR_UUID ATTR_VALUE : string) (DEFAULT : PyVal)
  (SECUREDSENDDOMAIN SENDDOMAIN : string) (env : Env) (ws : LoxWs.t)
  (h : list Call) (event : Event.t) : list Call :=
  match Event.data event with
  | VDict d =>
      let value := dict_get d ATTR_VALUE DEFAULT in
      let device_uuid := dict_get d ATTR_UUID DEFAULT in
      let code := dict_get d ATTR_CODE DEFAULT in
      if String.eqb (Event.event_type event) SENDDOMAIN then
        Call_send_websocket_command device_uuid value
          :: after_send (send_websocket_command env h ws device_uuid value)
      else if String.eqb (Event.event_type event) SECUREDSENDDOMAIN then
        Call_send_secured__websocket_command device_uuid value code
          :: after_send
               (send_secured__websocket_command env h ws device_uuid value code)
      else []
  | _ => []
  end.

(** What [async_setup] comes to when the options are there: the fetch,
    then on a good status the transport and its initialization. *)
Definition status_ok (request_code : PyVal) : bool :=
  eq_int request_code 200 || eq_str request_code "200".

Definition init_failed (res : PyVal) : bool :=
  negb (truthy res) || eq_int res (-1).

Definition caught (e : exn) (w : World) : Result PyVal * World :=
  if Exn.isinstance e Exn.ConnectionError then
    (Ok (VBool false),
     mkWorld (self w) (calls w ++ [Call_logger_error connect_error]))
  else (Raise e, w).

Definition setup_outcome (env : Env) (w : World) : Result PyVal * World :=
  let app := fetcher env (self w) in
  let answer := getJson env (calls w) app in
  let h1 := (calls w ++ [Call_getJson app])%list in
  let ms1 := set_lox_config (snd answer) (self w) in
  match fst answer with
  | Raise e => caught e (mkWorld ms1 h1)
  | Ok request_code =>
      if status_ok request_code then
        let ws := transport (self w) (snd answer) in
        let ms2 := set_api ws ms1 in
        let h2 := (h1 ++ [Call_async_init ws])%list in
        match async_init env h1 ws with
        | Raise e => caught e (mkWorld ms2 h2)
        | Ok res =>
            if init_failed res then
              (Ok (VBool false),
               mkWorld ms2 (h2 ++ [Call_logger_error connect_error]))
            else (Ok (VBool true), mkWorld ms2 h2)
        end
      else
        (Ok (VBool false),
         mkWorld ms1 (h1 ++ [Call_logger_error connect_error]))
  end.

(** What one [stop_loxone] comes to. *)
Definition stopped_once (env : Env) (w : World) : Result PyVal * World :=
  match api (self w) with
  | None => (Raise Exn.AttributeError, w)
  | Some ws =>
      match stop env (calls w) ws with
      | Ok r =>
          (Ok VNone,
           mkWorld (self w) (calls w ++ [Call_stop; Call_logger_debug r]))
      | Raise e => (Raise e, mkWorld (self w) (calls w ++ [Call_stop]))
      end
  end.

(** The record of calls after the handler has taken [events] one after
    the other, starting from [h]. *)
Fixpoint handled_all (ATTR_CODE ATTR_UUID ATTR_VALUE : string)
  (DEFAULT : PyVal) (SECUREDSENDDOMAIN SENDDOMAIN : string) (env : Env)
  (ws : LoxWs.t) (h : list Call) (events : list Event.t) : list Call :=
  match events with
  | [] => h
  | event :: rest =>
      handled_all ATTR_CODE ATTR_UUID ATTR_VALUE DEFAULT SECUREDSENDDOMAIN
        SENDDOMAIN env ws
        (h ++ handled ATTR_CODE ATTR_UUID ATTR_VALUE DEFAULT
                SECUREDSENDDOMAIN SENDDOMAIN env ws h event)
        rest
  end.

(** The send operations of [ws] raise nothing but value-conversion
    errors: [ValueError] or a class derived from it. *)
Definition only_ValueError (env : Env) (ws : LoxWs.t) : Prop :=
  (forall h u v e,
      send_websocket_command env h ws u v = Raise e ->
      Exn.isinstance e Exn.ValueError = true)
  /\ (forall h u v c e,
        send_secured__websocket_command env h ws u v c = Raise e ->
        Exn.isinstance e Exn.ValueError = true).

(** ** Sample collaborators and inputs *)

Module Sample.

Definition ATTR_CODE : string := "code".
Definition ATTR_UUID : string := "deviceId".
Definition ATTR_VALUE : string := "value".
Definition DEFAULT : PyVal := VStr EmptyString.
Definition DOMAIN : string := "loxone".
Definition SENDDOMAIN : string := "loxone_send".
Definition SECUREDSENDDOMAIN : string := "loxone_send_secured".
Definition MINISERVER_TYPES : list (Z * string) :=
  [(0, "Miniserver Gen 1"); (1, "Miniserver Go Gen 1");
   (2, "Miniserver Gen 2")].
Definition UNKNOWN_TYPE : string := "Unknown Type".

Definition doc : PyVal :=
  VDict [("msInfo", VDict [("serialNr", VStr "504F94A00001");
                          ("msName", VStr "Home");
                          ("miniserverType", VInt 2)]);
         ("softwareVersion", VList [VInt 10; VInt 3; VInt 2])].

Definition blank : LoxApp.t := LoxApp.mk VNone VNone VNone VNone VNone VNone.

(** A reachable miniserver: the fetch gives 200 and the document, every
    transport operation succeeds. *)
Definition env : Env :=
  {| new_LoxApp := blank;
     getJson := fun _ app =>
       (Ok (VInt 200),
        LoxApp.mk (LoxApp.lox_user app) (LoxApp.lox_pass app)
                  (LoxApp.host app) (LoxApp.port app) doc
                  (VStr "http://192.168.1.2:80"));
     async_init := fun _ _ => Ok (VBool true);
     start := fun _ _ => Ok VNone;
     stop := fun _ _ => Ok (VInt 0);
     send_websocket_command := fun _ _ _ _ => Ok VNone;
     send_secured__websocket_command := fun _ _ _ _ _ => Ok VNone |}.

(** The same miniserver, the fetch and the initialization answering as
    told. *)
Definition env_with (fetch init : Result PyVal) : Env :=
  {| new_LoxApp := blank;
     getJson := fun h app => (fetch, snd (getJson env h app));
     async_init := fun _ _ => init;
     start := start env;
     stop := stop env;
     send_websocket_command := send_websocket_command env;
     send_secured__websocket_command :=
       send_secured__websocket_command env |}.

(** A transport whose send operations fail on converting the value. *)
Definition env_bad_value : Env :=
  {| new_LoxApp := blank;
     getJson := getJson env;
     async_init := async_init env;
     start := start env;
     stop := stop env;
     send_websocket_command := fun _ _ _ _ => Raise Exn.ValueError;
     send_secured__websocket_command :=
       fun _ _ _ _ _ => Raise Exn.UnicodeError |}.

Definition entry : ConfigEntry.t :=
  ConfigEntry.mk
    [(CONF_USERNAME, VStr "admin"); (CONF_PASSWORD, VStr "secret");
     (CONF_HOST, VStr "192.168.1.2"); (CONF_PORT, VInt 80)]
    [(CONF_HOST, VStr "192.168.1.2")]
    (VStr "504F94A00001") (VStr "entry-1").

(** Before any setup. *)
Definition fresh : World := mkWorld (MiniServer_init entry) [].

Definition ws : LoxWs.t :=
  LoxWs.mk (VStr "admin") (VStr "secret") (VStr "192.168.1.2") (VInt 80)
           doc (VStr "http://192.168.1.2:80") None.

(** After a setup that succeeded. *)
Definition ready : World :=
  mkWorld (set_api ws (with_document entry doc)) [].

Definition plain_on : Event.t :=
  Event.mk SENDDOMAIN
    (VDict [(ATTR_UUID, VStr "abc"); (ATTR_VALUE, VStr "on")]).

Definition secured_on : Event.t :=
  Event.mk SECUREDSENDDOMAIN
    (VDict [(ATTR_UUID, VStr "abc"); (ATTR_VALUE, VStr "on");
            (ATTR_CODE, VStr "1234")]).

Definition stopping : Event.t :=
  Event.mk "homeassistant_stop" (VDict []).

End Sample.

(** ** The rest of the module *)

(** [get_miniserver_from_config], on the mapping it is given: the
    miniservers of [hass.data[DOMAIN]] under their ids.  [None] stands
    for Python's [None]; [config[next(iter(config))]] looks the first key
    up again. *)
Definition get_miniserver_from_config {A : Type} (config : list (string * A))
  : option A :=
  match config with
  | [] => None
  | (first, _) :: _ =>
      (fix find (d : list (string * A)) : option A :=
         match d with
         | [] => None
         | (k, v) :: r => if String.eqb k first then Some v else find r
         end) config
  end.

(** [mapping[key]] for any key: a text is looked up, a list or a dict
    cannot be hashed, nothing else is among the keys. *)
Definition subscript {A : Type} (d : list (string * A)) (key : PyVal)
  : Result A :=
  match key with
  | VStr k =>
      (fix find (d : list (string * A)) : Result A :=
         match d with
         | [] => Raise Exn.KeyError
         | (k', v) :: r => if String.eqb k' k then Ok v else find r
         end) d
  | VList _ | VDict _ => Raise Exn.TypeError
  | _ => Raise Exn.KeyError
  end.

(** [get_miniserver_from_config_entry]: [hass.data[DOMAIN][unique_id]]. *)
Definition get_miniserver_from_config_entry {A : Type} (DOMAIN : string)
  (hass_data : list (string * list (string * A))) (entry : ConfigEntry.t)
  : Result A :=
  rbind (subscript hass_data (VStr DOMAIN)) (fun miniservers =>
  subscript miniservers (ConfigEntry.unique_id entry)).

Definition NEW_GROUP : string := "groups".
Definition NEW_LIGHT : string := "lights".
Definition NEW_SCENE : string := "scenes".
Definition NEW_SENSOR : string := "sensors".
Definition NEW_COVERS : string := "covers".

(** The property [miniserverid]. *)
Definition miniserverid (ms : MiniServer) : PyVal :=
  ConfigEntry.unique_id (config_entry ms).

(** The property [host]. *)
Definition host (ms : MiniServer) : Result PyVal :=
  match dict_find (ConfigEntry.data (config_entry ms)) CONF_HOST with
  | Some v => Ok v
  | None => Raise Exn.KeyError
  end.

(** An f-string [f"prefix{self.miniserverid}"]: the replacement field
    is [format(v, "")], which is [str(v)]. *)
Definition signal (prefix : string) (ms : MiniServer) : Result PyVal :=
  rbind (str (miniserverid ms)) (fun text => Ok (VStr (prefix ++ text))).

(** [async_signal_new_device] *)
Definition async_signal_new_device (ms : MiniServer) (device_type : PyVal)
  : Result PyVal :=
  rbind (signal "loxone_new_group_" ms) (fun group =>
  rbind (signal "loxone_new_light_" ms) (fun light =>
  rbind (signal "loxone_new_scene_" ms) (fun scene =>
  rbind (signal "loxone_new_sensor_" ms) (fun sensor =>
  rbind (signal "loxone_new_cover_" ms) (fun cover =>
  let new_device :=
    [(NEW_GROUP, group); (NEW_LIGHT, light); (NEW_SCENE, scene);
     (NEW_SENSOR, sensor); (NEW_COVERS, cover)] in
  subscript new_device device_type))))).

(** The transport handing a run of inbound messages to
    [async_loxone_callback], one after the other. *)
Fixpoint relay (EVENT : string) (messages : list PyVal) : M unit :=
  match messages with
  | [] => ret tt
  | message :: rest =>
      async_loxone_callback EVENT message ;;; relay EVENT rest
  end.

(** What one [start_loxone] comes to. *)
Definition started_once (env : Env) (w : World) : Result PyVal * World :=
  match api (self w) with
  | None => (Raise Exn.AttributeError, w)
  | Some ws =>
      (match start env (calls w) ws with
       | Ok _ => Ok VNone
       | Raise e => Raise e
       end,
       mkWorld (self w) (calls w ++ [Call_start]))
  end.

Definition is_logger_error (c : Call) : bool :=
  match c with
  | Call_logger_error _ => true
  | _ => false
  end.

(** How many errors the record of calls has logged. *)
Definition errors_logged (cs : list Call) : nat :=
  List.length (filter is_logger_error cs).

Definition is_logger_debug (c : Call) : bool :=
  match c with
  | Call_logger_debug _ => true
  | _ => false
  end.

(** The record of calls, the debug log left out. *)
Definition but_debug (cs : list Call) : list Call :=
  filter (fun c => negb (is_logger_debug c)) cs.

(** A bus event the outbound handler has a branch for. *)
Definition is_command (SECUREDSENDDOMAIN SENDDOMAIN : string)
  (event : Event.t) : bool :=
  (String.eqb (Event.event_type event) SENDDOMAIN
   || String.eqb (Event.event_type event) SECUREDSENDDOMAIN)
  && isinstance_dict (Event.data event).

(** The parts a dotted text is made of: [text.split(".")]. *)
Fixpoint split_dots (s : string) : list string :=
  match s with
  | EmptyString => [EmptyString]
  | String c r =>
      if Ascii.eqb c "."%char then EmptyString :: split_dots r
      else
        match split_dots r with
        | [] => [String c EmptyString]
        | part :: parts => String c part :: parts
        end
  end.

(** The integer a decimal text writes. *)
Definition int_of_text (s : string) : option Z :=
  option_map Z.of_int (NilZero.int_of_string s).

Module More.

(** A document as a miniserver might hand it out, its serial number a
    list. *)
Definition doc_bad_serial : PyVal :=
  VDict [("msInfo", VDict [("serialNr", VList [VInt 7]);
                          ("msName", VStr "Home")])].

Definition bad_serial : World :=
  mkWorld (set_api Sample.ws (with_document Sample.entry doc_bad_serial)) [].

(** A world set up earlier, with a callback registered and calls made. *)
Definition used : World :=
  mkWorld
    (set_api (LoxWs.set_message_call_back 5%nat Sample.ws)
             (with_document Sample.entry (VDict [])))
    [].

(** An entry without options. *)
Definition bare : World :=
  mkWorld (MiniServer_init (ConfigEntry.mk [] [] (VStr "id-1") VNone)) [].

(** A transport whose send fails for want of a connection. *)
Definition env_offline : Env :=
  {| new_LoxApp := Sample.blank;
     getJson := getJson Sample.env;
     async_init := async_init Sample.env;
     start := fun _ _ => Raise Exn.ConnectionResetError;
     stop := stop Sample.env;
     send_websocket_command := fun _ _ _ _ => Raise Exn.ConnectionResetError;
     send_secured__websocket_command :=
       fun _ _ _ _ _ => Raise Exn.ConnectionResetError |}.

End More.

(** * Properties *)

(** ** Values *)

Example str_int_neg : str_int (-5) = Ok "-5".
Proof. reflexivity. Qed.

Example repr_nested :
  repr (VList [VInt 1; VStr "a'b"; VDict [("k", VNone)]])
  = Ok ("[1, " ++ String dquote ("a'b" ++ String dquote ", {'k': None}]")).
Proof. reflexivity. Qed.

Example repr_escapes :
  repr_str (String (ascii_of_N 10) (String (ascii_of_N 7) "\"))
  = "'\n\x07\\'".
Proof. reflexivity. Qed.

Lemma eq_int_true (v : PyVal) :
  eq_int v 200 = true <-> v = VInt 200.
Proof.
  split.
  - destruct v as [| [] | z | | |]; simpl; try discriminate.
    intros H. apply Z.eqb_eq in H. now subst.
  - intros ->. reflexivity.
Qed.

Lemma eq_int_minus_one (v : PyVal) :
  eq_int v (-1) = true <-> v = VInt (-1).
Proof.
  split.
  - destruct v as [| [] | z | | |]; simpl; try discriminate.
    intros H. apply Z.eqb_eq in H. now subst.
  - intros ->. reflexivity.
Qed.

Lemma eq_str_true (v : PyVal) (s : string) :
  eq_str v s = true <-> v = VStr s.
Proof.
  split.
  - destruct v; simpl; try discriminate.
    intros H. apply String.eqb_eq in H. now subst.
  - intros ->. simpl. apply String.eqb_refl.
Qed.

Lemma classify_unknown (known : list (Z * string)) (fallback : string)
  (code : Z) :
  (forall label, ~ In (code, label) known) ->
  classify known fallback code = fallback.
Proof.
  induction known as [| [c label] r IH]; simpl; intros Hnot.
  - reflexivity.
  - destruct (Z.eqb_spec c code) as [-> | Hne].
    + exfalso. apply (Hnot label). now left.
    + apply IH. intros l Hin. apply (Hnot l). now right.
Qed.

Lemma classify_known (known : list (Z * string)) (fallback : string)
  (code : Z) :
  classify known fallback code = fallback
  \/ In (code, classify known fallback code) known.
Proof.
  induction known as [| [c label] r IH]; simpl.
  - now left.
  - destruct (Z.eqb_spec c code) as [-> | Hne].
    + right. now left.
    + destruct IH as [IH | IH]; [now left | right; now right].
Qed.

(** ** Identity accessors *)

Lemma path_lookup (ms : MiniServer) (outer inner : string) :
  try_except_all
    (rbind (lox_config_json ms) (fun doc =>
     rbind (getitem doc outer) (fun info => getitem info inner)))
    (Ok VNone)
  = Ok (at_path ms outer inner).
Proof.
  unfold at_path, document, lox_config_json.
  destruct (lox_config ms) as [app |]; simpl; [| reflexivity].
  destruct (LoxApp.json app) as [| | | | | d]; simpl; try reflexivity.
  destruct (dict_find d outer) as [info |]; simpl; [| reflexivity].
  destruct info as [| | | | | d']; simpl; try reflexivity.
  destruct (dict_find d' inner); reflexivity.
Qed.

Lemma serial_at_path (ms : MiniServer) :
  serial ms = Ok (at_path ms "msInfo" "serialNr").
Proof. apply path_lookup. Qed.

Lemma name_at_path (ms : MiniServer) :
  name ms = Ok (at_path ms "msInfo" "msName").
Proof. apply path_lookup. Qed.

Lemma miniserver_type_at_path (ms : MiniServer) :
  miniserver_type ms = Ok (at_path ms "msInfo" "miniserverType").
Proof. apply path_lookup. Qed.

Lemma traverse_str_keys (d : list (string * PyVal)) :
  traverse str (map (fun kv => VStr (fst kv)) d)
  = Ok (map (fun kv => fst kv) d).
Proof.
  induction d as [| kv d IH]; cbn; [reflexivity |].
  cbn in IH. now rewrite IH.
Qed.

Lemma traverse_str_chars (s : string) :
  traverse str (chars s)
  = Ok (map (fun c => String c EmptyString) (list_ascii_of_string s)).
Proof.
  induction s as [| c s IH]; cbn; [reflexivity |].
  cbn in IH. now rewrite IH.
Qed.

Lemma software_version_joined (ms : MiniServer) :
  software_version ms = Ok (joined_version ms).
Proof.
  unfold software_version, joined_version, document, lox_config_json.
  destruct (lox_config ms) as [app |]; simpl; [| reflexivity].
  destruct (LoxApp.json app) as [| | | | | d]; simpl; try reflexivity.
  destruct (dict_find d "softwareVersion") as [comps |]; simpl;
    [| reflexivity].
  destruct comps as [| | | s | l | keys]; simpl; try reflexivity.
  - now rewrite traverse_str_chars.
  - destruct (traverse str l); reflexivity.
  - now rewrite traverse_str_keys.
Qed.

(** C3, as the code has it.  None of [serial], [name], [software_version]
    and [miniserver_type] ever raises, whatever the [MiniServer] holds.
    Each gives [None] when there is no fetcher or the path does not resolve
    (the document or [msInfo] is not a dict, a key is missing, the
    [softwareVersion] entry does not iterate); when the path resolves,
    [serial], [name] and [miniserver_type] give the value found there,
    whatever its shape, and [software_version] gives the dot-joined [str]
    of the items of whatever iterates there (a list, a string, a dict),
    or [None] when an item of a list has no [str]. *)
Theorem identity_accessors_total (ms : MiniServer) :
  serial ms = Ok (at_path ms "msInfo" "serialNr")
  /\ name ms = Ok (at_path ms "msInfo" "msName")
  /\ software_version ms = Ok (joined_version ms)
  /\ miniserver_type ms = Ok (at_path ms "msInfo" "miniserverType").
Proof.
  repeat split.
  - apply serial_at_path.
  - apply name_at_path.
  - apply software_version_joined.
  - apply miniserver_type_at_path.
Qed.

(** C3, as stated, fails: a [softwareVersion] entry of the wrong shape, a
    text instead of an array of numbers, does not give [None]. *)
Lemma software_version_of_text_not_absent :
  software_version
    (with_document no_entry (VDict [("softwareVersion", VStr "abc")]))
  = Ok (VStr "a.b.c")
  /\ serial
       (with_document no_entry
          (VDict [("msInfo", VDict [("serialNr", VList [VInt 7])])]))
     = Ok (VList [VInt 7]).
Proof. split; reflexivity. Qed.

Example accessors_before_setup :
  let ms := MiniServer_init no_entry in
  serial ms = Ok VNone /\ name ms = Ok VNone
  /\ software_version ms = Ok VNone /\ miniserver_type ms = Ok VNone.
Proof. repeat split. Qed.

Example accessors_on_sample :
  let ms := with_document no_entry Sample.doc in
  serial ms = Ok (VStr "504F94A00001") /\ name ms = Ok (VStr "Home")
  /\ software_version ms = Ok (VStr "10.3.2")
  /\ miniserver_type ms = Ok (VInt 2).
Proof. repeat split. Qed.

Lemma str_int_renderable (z : Z) :
  renderable z = true -> str_int z = Ok (decimal z).
Proof.
  unfold renderable, str_int. intros H.
  destruct (Nat.ltb_spec int_max_str_digits (digits z)) as [Hlt | _];
    [| reflexivity].
  apply Nat.leb_le in H. exfalso. apply (Nat.lt_irrefl (digits z)).
  eapply Nat.le_lt_trans; eassumption.
Qed.

Lemma str_int_text (z : Z) (text : string) :
  str_int z = Ok text -> text = decimal z.
Proof.
  unfold str_int.
  destruct (Nat.ltb int_max_str_digits (digits z)); [discriminate |].
  now intros [= <-].
Qed.

Lemma traverse_str_ints (comps : list Z) :
  forallb renderable comps = true ->
  traverse str (map VInt comps) = Ok (map decimal comps).
Proof.
  induction comps as [| z rest IH]; cbn; [reflexivity |].
  intros H. apply andb_prop in H as [Hz Hrest].
  rewrite (str_int_renderable z Hz). cbn.
  cbn in IH. now rewrite (IH Hrest).
Qed.






(** ** Lifecycle *)

Local Open Scope list_scope.

Ltac run :=
  cbv beta iota delta
    [bind ret raise lift call emit try_except get_self modify_self
     self_api self_lox_config api_stop api_start api_async_init
     api_send_websocket_command api_send_secured__websocket_command
     option_item item get set_lox_config_attr lox_config_getJson];
  cbn [self calls fst snd].

Section Lifecycle.

Variable env : Env.

Lemma api_stop_run (w : World) :
  api_stop env w =
  match api (self w) with
  | None => (Raise Exn.AttributeError, w)
  | Some ws =>
      (stop env (calls w) ws, mkWorld (self w) (calls w ++ [Call_stop]))
  end.
Proof. run. destruct (api (self w)); reflexivity. Qed.

Lemma stop_loxone_run (event : Event.t) (w : World) :
  stop_loxone env event w = stopped_once env w.
Proof.
  unfold stop_loxone, stopped_once, bind. rewrite api_stop_run.
  destruct (api (self w)) as [ws |]; [| reflexivity].
  destruct (stop env (calls w) ws); run; [| reflexivity].
  now rewrite <- app_assoc.
Qed.

(** C2, as the code has it.  [stop_loxone] has no guard: with no
    transport ([api] still [None]) it raises [AttributeError] and
    changes nothing, and so does [shutdown]; with a transport it makes
    one [stop] call on it, logs what that returned, and raises what that
    raised.  Two [stop_loxone] in a row are two such steps: the second
    calls the transport's [stop] again. *)
Theorem stop_loxone_delegates (event : Event.t) (w : World) :
  stop_loxone env event w = stopped_once env w
  /\ (api (self w) = None ->
      shutdown env event w = (Raise Exn.AttributeError, w))
  /\ (stop_loxone env event ;;; stop_loxone env event) w
     = match stopped_once env w with
       | (Ok _, w') => stopped_once env w'
       | (Raise e, w') => (Raise e, w')
       end.
Proof.
  split; [apply stop_loxone_run |]. split.
  - intros Hnone. unfold shutdown, bind. rewrite api_stop_run, Hnone.
    reflexivity.
  - unfold bind at 1. rewrite stop_loxone_run.
    destruct (stopped_once env w) as [[r | e] w']; [| reflexivity].
    apply stop_loxone_run.
Qed.


Lemma async_set_callback_stores (message_callback : Callback) (w : World)
  (ws : LoxWs.t) :
  api (self w) = Some ws ->
  async_set_callback message_callback w
  = (Ok VNone,
     mkWorld
       (set_api (LoxWs.set_message_call_back message_callback ws) (self w))
       (calls w)).
Proof.
  intros Hsome. unfold async_set_callback. run. now rewrite Hsome.
Qed.

End Lifecycle.

(** C2, as stated, fails: before any setup, [stop_loxone] and [shutdown]
    raise. *)
Lemma stop_before_setup_raises :
  stop_loxone Sample.env Sample.stopping Sample.fresh
  = (Raise Exn.AttributeError, Sample.fresh)
  /\ shutdown Sample.env Sample.stopping Sample.fresh
     = (Raise Exn.AttributeError, Sample.fresh).
Proof. split; reflexivity. Qed.

Lemma stop_loxone_delegates_at_ready :
  (stop_loxone Sample.env Sample.stopping ;;;
   stop_loxone Sample.env Sample.stopping) Sample.ready
  = (Ok VNone,
     mkWorld (self Sample.ready)
       [Call_stop; Call_logger_debug (VInt 0);
        Call_stop; Call_logger_debug (VInt 0)]).
Proof.
  destruct (stop_loxone_delegates Sample.env Sample.stopping Sample.ready)
    as (_ & _ & Htwice).
  rewrite Htwice. reflexivity.
Defined.


(** ** Setup *)

#[local] Arguments Exn.isinstance : simpl never.

Section Setup.

Variable env : Env.

Lemma configured_item (ms : MiniServer) (key : string) :
  configured ms = true ->
  In key [CONF_USERNAME; CONF_PASSWORD; CONF_HOST; CONF_PORT] ->
  dict_find (ConfigEntry.options (config_entry ms)) key
  = Some (option_of ms key).
Proof.
  unfold configured, option_of, dict_get. intros Hc Hin.
  rewrite forallb_forall in Hc. specialize (Hc key Hin).
  destruct (dict_find (ConfigEntry.options (config_entry ms)) key);
    [reflexivity | discriminate].
Qed.

Lemma async_setup_run (w : World) :
  configured (self w) = true ->
  async_setup env w = setup_outcome env w.
Proof.
  intros Hc.
  assert (Hu := configured_item (self w) CONF_USERNAME Hc ltac:(simpl; tauto)).
  assert (Hp := configured_item (self w) CONF_PASSWORD Hc ltac:(simpl; tauto)).
  assert (Hh := configured_item (self w) CONF_HOST Hc ltac:(simpl; tauto)).
  assert (Ho := configured_item (self w) CONF_PORT Hc ltac:(simpl; tauto)).
  unfold async_setup, async_setup_body, setup_outcome. run.
  cbn [set_lox_config config_entry lox_config self calls].
  rewrite Hu. cbn. rewrite Hp. cbn. rewrite Hh. cbn. rewrite Ho. cbn.
  change (upd_port _ _) with (fetcher env (self w)).
  destruct (getJson env (calls w) (fetcher env (self w)))
    as [[request_code | e] app']; cbn [fst snd].
  - unfold status_ok.
    destruct (eq_int request_code 200 || eq_str request_code "200"); cbn.
    + rewrite Hu. cbn. rewrite Hp. cbn. rewrite Hh. cbn. rewrite Ho. cbn.
      change (LoxWs.mk _ _ _ _ _ _ _) with (transport (self w) app').
      destruct (async_init env _ (transport (self w) app')) as [res | e].
      * unfold init_failed.
        destruct (negb (truthy res) || eq_int res (-1)); cbn;
          [rewrite <- !app_assoc |]; reflexivity.
      * unfold caught. destruct (Exn.isinstance e Exn.ConnectionError);
          cbn; reflexivity.
    + rewrite <- !app_assoc. reflexivity.
  - unfold caught. destruct (Exn.isinstance e Exn.ConnectionError);
      cbn; reflexivity.
Qed.

Lemma status_ok_true (request_code : PyVal) :
  status_ok request_code = true
  <-> request_code = VInt 200 \/ request_code = VStr "200".
Proof.
  unfold status_ok. rewrite orb_true_iff, eq_int_true, eq_str_true.
  reflexivity.
Qed.

Lemma init_failed_true (res : PyVal) :
  init_failed res = true <-> truthy res = false \/ res = VInt (-1).
Proof.
  unfold init_failed.
  rewrite orb_true_iff, negb_true_iff, eq_int_minus_one. reflexivity.
Qed.

Lemma init_failed_false (res : PyVal) :
  init_failed res = false <-> truthy res = true /\ res <> VInt (-1).
Proof.
  rewrite <- not_true_iff_false, init_failed_true.
  destruct (truthy res); intuition congruence.
Qed.

Lemma status_ok_false (request_code : PyVal) :
  status_ok request_code = false
  <-> request_code <> VInt 200 /\ request_code <> VStr "200".
Proof.
  rewrite <- not_true_iff_false, status_ok_true. tauto.
Qed.

(** C1.  On a [MiniServer] whose entry has the four options,
    [async_setup] returns [False] without raising when the fetched
    status code is neither the number 200 nor the text ["200"], when the
    fetch raises a [ConnectionError] (or a class derived from it), and
    when the status is good but [async_init] returns something falsy or
    -1; and it returns [True] exactly when the status is 200 or ["200"]
    and [async_init] returns something truthy other than -1. *)
Theorem async_setup_outcome (w : World) :
  configured (self w) = true ->
  let app := fetcher env (self w) in
  let fetched := getJson env (calls w) app in
  let inited :=
    async_init env (calls w ++ [Call_getJson app])
               (transport (self w) (snd fetched)) in
  (forall request_code,
      fst fetched = Ok request_code ->
      request_code <> VInt 200 -> request_code <> VStr "200" ->
      fst (async_setup env w) = Ok (VBool false))
  /\ (forall e,
        fst fetched = Raise e ->
        Exn.isinstance e Exn.ConnectionError = true ->
        fst (async_setup env w) = Ok (VBool false))
  /\ (forall request_code res,
        fst fetched = Ok request_code ->
        request_code = VInt 200 \/ request_code = VStr "200" ->
        inited = Ok res ->
        truthy res = false \/ res = VInt (-1) ->
        fst (async_setup env w) = Ok (VBool false))
  /\ (fst (async_setup env w) = Ok (VBool true)
      <-> exists request_code res,
            fst fetched = Ok request_code
            /\ (request_code = VInt 200 \/ request_code = VStr "200")
            /\ inited = Ok res
            /\ truthy res = true /\ res <> VInt (-1)).
Proof.
  intros Hc app fetched inited.
  rewrite (async_setup_run w Hc). unfold setup_outcome.
  fold app. fold fetched. fold inited.
  repeat split.
  - intros code Hf Hn Hs. rewrite Hf.
    assert (Hko : status_ok code = false) by now apply status_ok_false.
    now rewrite Hko.
  - intros e Hf He. rewrite Hf. unfold caught. now rewrite He.
  - intros code res Hf Hok Hi Hbad. rewrite Hf.
    apply status_ok_true in Hok. rewrite Hok, Hi.
    apply init_failed_true in Hbad. now rewrite Hbad.
  - destruct (fst fetched) as [code | e].
    + destruct (status_ok code) eqn:Hok; [| discriminate].
      destruct inited as [res | e].
      * destruct (init_failed res) eqn:Hbad; [discriminate |].
        intros _. exists code, res.
        apply status_ok_true in Hok. apply init_failed_false in Hbad.
        tauto.
      * unfold caught.
        destruct (Exn.isinstance e Exn.ConnectionError); discriminate.
    + unfold caught.
      destruct (Exn.isinstance e Exn.ConnectionError); discriminate.
  - intros (code & res & Hf & Hok & Hi & Ht & Hn). rewrite Hf.
    apply status_ok_true in Hok. rewrite Hok, Hi.
    assert (Hgood : init_failed res = false)
      by now apply init_failed_false.
    now rewrite Hgood.
Qed.

End Setup.

Lemma async_setup_succeeds_on_sample :
  configured (self Sample.fresh) = true
  /\ fst (async_setup Sample.env Sample.fresh) = Ok (VBool true).
Proof.
  split; [reflexivity |].
  apply (async_setup_outcome Sample.env Sample.fresh); [reflexivity |].
  exists (VInt 200), (VBool true).
  repeat split; try discriminate. now left.
Defined.

Example async_setup_failures :
  fst (async_setup (Sample.env_with (Ok (VInt 404)) (Ok (VBool true)))
         Sample.fresh) = Ok (VBool false)
  /\ fst (async_setup
            (Sample.env_with (Raise Exn.ConnectionRefusedError)
               (Ok (VBool true)))
            Sample.fresh) = Ok (VBool false)
  /\ fst (async_setup (Sample.env_with (Ok (VStr "200")) (Ok (VInt (-1))))
            Sample.fresh) = Ok (VBool false)
  /\ fst (async_setup (Sample.env_with (Ok (VStr "200")) (Ok VNone))
            Sample.fresh) = Ok (VBool false)
  /\ fst (async_setup (Sample.env_with (Ok (VStr "200")) (Ok (VInt 1)))
            Sample.fresh) = Ok (VBool true)
  /\ fst (async_setup (Sample.env_with (Raise Exn.TimeoutError) (Ok VNone))
            Sample.fresh) = Raise Exn.TimeoutError.
Proof. repeat split. Qed.

(** ** The bridge *)

Lemma sends_app (a b : list Call) : sends (a ++ b) = sends a ++ sends b.
Proof. apply filter_app. Qed.

Section Bridge.

Variables ATTR_CODE ATTR_UUID ATTR_VALUE : string.
Variable DEFAULT : PyVal.
Variables SECUREDSENDDOMAIN SENDDOMAIN : string.
Variable env : Env.

Local Abbreviation listen :=
  (listen_loxone_send ATTR_CODE ATTR_UUID ATTR_VALUE DEFAULT
                      SECUREDSENDDOMAIN SENDDOMAIN env).
Local Abbreviation service :=
  (handle_websocket_command ATTR_UUID ATTR_VALUE DEFAULT env).
Local Abbreviation made :=
  (handled ATTR_CODE ATTR_UUID ATTR_VALUE DEFAULT
           SECUREDSENDDOMAIN SENDDOMAIN env).
Local Abbreviation made_all :=
  (handled_all ATTR_CODE ATTR_UUID ATTR_VALUE DEFAULT
               SECUREDSENDDOMAIN SENDDOMAIN env).
Local Abbreviation run_of :=
  (deliver ATTR_CODE ATTR_UUID ATTR_VALUE DEFAULT
           SECUREDSENDDOMAIN SENDDOMAIN env).

Lemma listen_run (event : Event.t) (w : World) (ws : LoxWs.t) :
  api (self w) = Some ws ->
  only_ValueError env ws ->
  listen event w
  = (Ok VNone, mkWorld (self w) (calls w ++ made ws (calls w) event)).
Proof.
  intros Hws [Hplain Hsec].
  unfold listen_loxone_send, listen_loxone_send_body, handled.
  destruct event as [kind payload]. cbn [Event.event_type Event.data].
  destruct payload as [| | | | | d];
    try (rewrite !andb_false_r; run; rewrite app_nil_r;
         destruct w; reflexivity).
  cbn [isinstance_dict]. rewrite !andb_true_r.
  destruct (String.eqb kind SENDDOMAIN).
  - run. rewrite Hws. cbn [fst snd self calls].
    destruct (send_websocket_command env (calls w) ws
                (dict_get d ATTR_UUID DEFAULT)
                (dict_get d ATTR_VALUE DEFAULT)) as [r | e] eqn:Hsend;
      cbn [after_send].
    + reflexivity.
    + rewrite (Hplain _ _ _ _ Hsend). cbn [self calls].
      rewrite <- app_assoc. reflexivity.
  - destruct (String.eqb kind SECUREDSENDDOMAIN).
    + run. rewrite Hws. cbn [fst snd self calls].
      destruct (send_secured__websocket_command env (calls w) ws
                  (dict_get d ATTR_UUID DEFAULT)
                  (dict_get d ATTR_VALUE DEFAULT)
                  (dict_get d ATTR_CODE DEFAULT)) as [r | e] eqn:Hsend;
        cbn [after_send].
      * reflexivity.
      * rewrite (Hsec _ _ _ _ _ Hsend). cbn [self calls].
        rewrite <- app_assoc. reflexivity.
    + run. rewrite app_nil_r. destruct w; reflexivity.
Qed.

Lemma listen_never_raises_ValueError (event : Event.t) (w : World)
  (e : exn) :
  fst (listen event w) = Raise e ->
  Exn.isinstance e Exn.ValueError = false.
Proof.
  unfold listen_loxone_send, bind, try_except.
  destruct (listen_loxone_send_body _ _ _ _ _ _ _ event w)
    as [[u | e'] w']; cbn; [discriminate |].
  destruct (Exn.isinstance e' Exn.ValueError) eqn:He'; cbn;
    [discriminate |].
  intros Heq. injection Heq as <-. exact He'.
Qed.

Lemma deliver_run (events : list Event.t) (w : World) (ws : LoxWs.t) :
  api (self w) = Some ws ->
  only_ValueError env ws ->
  run_of events w = (Ok tt, mkWorld (self w) (made_all ws (calls w) events)).
Proof.
  intros Hws Honly. revert w Hws.
  induction events as [| event rest IH]; intros w Hws.
  - destruct w; reflexivity.
  - cbn [deliver]. unfold bind at 1.
    rewrite (listen_run event w ws Hws Honly).
    rewrite IH by exact Hws. reflexivity.
Qed.

Lemma listen_plain_other (w : World) (ws : LoxWs.t)
  (d : list (string * PyVal)) (e : exn) :
  api (self w) = Some ws ->
  send_websocket_command env (calls w) ws
    (dict_get d ATTR_UUID DEFAULT) (dict_get d ATTR_VALUE DEFAULT)
  = Raise e ->
  Exn.isinstance e Exn.ValueError = false ->
  listen (Event.mk SENDDOMAIN (VDict d)) w
  = (Raise e,
     mkWorld (self w)
       (calls w
        ++ [Call_send_websocket_command (dict_get d ATTR_UUID DEFAULT)
                                        (dict_get d ATTR_VALUE DEFAULT)])).
Proof.
  intros Hws Hsend He.
  unfold listen_loxone_send, listen_loxone_send_body.
  cbn [Event.event_type Event.data isinstance_dict].
  rewrite String.eqb_refl. cbn [andb]. run. rewrite Hws.
  cbn [fst snd self calls]. rewrite Hsend. now rewrite He.
Qed.

Lemma listen_secured_other (w : World) (ws : LoxWs.t)
  (d : list (string * PyVal)) (e : exn) :
  SECUREDSENDDOMAIN <> SENDDOMAIN ->
  api (self w) = Some ws ->
  send_secured__websocket_command env (calls w) ws
    (dict_get d ATTR_UUID DEFAULT) (dict_get d ATTR_VALUE DEFAULT)
    (dict_get d ATTR_CODE DEFAULT)
  = Raise e ->
  Exn.isinstance e Exn.ValueError = false ->
  listen (Event.mk SECUREDSENDDOMAIN (VDict d)) w
  = (Raise e,
     mkWorld (self w)
       (calls w
        ++ [Call_send_secured__websocket_command
              (dict_get d ATTR_UUID DEFAULT) (dict_get d ATTR_VALUE DEFAULT)
              (dict_get d ATTR_CODE DEFAULT)])).
Proof.
  intros Hkinds Hws Hsend He.
  unfold listen_loxone_send, listen_loxone_send_body.
  cbn [Event.event_type Event.data isinstance_dict].
  apply String.eqb_neq in Hkinds. rewrite Hkinds, String.eqb_refl.
  cbn [andb]. run. rewrite Hws.
  cbn [fst snd self calls]. rewrite Hsend. now rewrite He.
Qed.

(** C5, as the code has it.  No value-conversion error ever leaves
    [listen_loxone_send]: whatever the event and the state, an exception
    that leaves it is no [ValueError].  With a transport whose send
    operations raise nothing but value-conversion errors, the handler
    returns normally for every event: a [ValueError] raised by the send
    is caught and handed to [traceback.print_exc], an event that is no
    command with a dict payload is dropped without a call; so a run of
    events is handled to its end, each event in its turn.  An exception
    of the send that is no [ValueError] is not caught: it leaves the
    handler after the one send call, without [traceback.print_exc]. *)
Theorem listen_loxone_send_catches_ValueError (w : World) :
  (forall event e,
      fst (listen event w) = Raise e ->
      Exn.isinstance e Exn.ValueError = false)
  /\ (forall ws events,
        api (self w) = Some ws ->
        only_ValueError env ws ->
        (forall event,
            listen event w
            = (Ok VNone,
               mkWorld (self w) (calls w ++ made ws (calls w) event)))
        /\ run_of events w
           = (Ok tt, mkWorld (self w) (made_all ws (calls w) events)))
  /\ (forall ws d e,
        api (self w) = Some ws ->
        send_websocket_command env (calls w) ws
          (dict_get d ATTR_UUID DEFAULT) (dict_get d ATTR_VALUE DEFAULT)
        = Raise e ->
        Exn.isinstance e Exn.ValueError = false ->
        listen (Event.mk SENDDOMAIN (VDict d)) w
        = (Raise e,
           mkWorld (self w)
             (calls w
              ++ [Call_send_websocket_command
                    (dict_get d ATTR_UUID DEFAULT)
                    (dict_get d ATTR_VALUE DEFAULT)])))
  /\ (forall ws d e,
        SECUREDSENDDOMAIN <> SENDDOMAIN ->
        api (self w) = Some ws ->
        send_secured__websocket_command env (calls w) ws
          (dict_get d ATTR_UUID DEFAULT) (dict_get d ATTR_VALUE DEFAULT)
          (dict_get d ATTR_CODE DEFAULT)
        = Raise e ->
        Exn.isinstance e Exn.ValueError = false ->
        listen (Event.mk SECUREDSENDDOMAIN (VDict d)) w
        = (Raise e,
           mkWorld (self w)
             (calls w
              ++ [Call_send_secured__websocket_command
                    (dict_get d ATTR_UUID DEFAULT)
                    (dict_get d ATTR_VALUE DEFAULT)
                    (dict_get d ATTR_CODE DEFAULT)]))).
Proof.
  split; [| split; [| split]].
  - intros event e. apply listen_never_raises_ValueError.
  - intros ws events Hws Honly. split.
    + intros event. now apply listen_run.
    + now apply deliver_run.
  - intros ws d e. apply listen_plain_other.
  - intros ws d e. apply listen_secured_other.
Qed.

(** C6.  With a transport, a plain-command event whose payload is a dict
    makes exactly one send call, [send_websocket_command] with the
    payload's device id and value, each replaced by [DEFAULT] when
    absent. *)
Theorem plain_command_sends_once (w : World) (ws : LoxWs.t)
  (d : list (string * PyVal)) :
  api (self w) = Some ws ->
  sends (calls (snd (listen (Event.mk SENDDOMAIN (VDict d)) w)))
  = sends (calls w)
    ++ [Call_send_websocket_command (dict_get d ATTR_UUID DEFAULT)
                                    (dict_get d ATTR_VALUE DEFAULT)].
Proof.
  intros Hws.
  unfold listen_loxone_send, listen_loxone_send_body.
  cbn [Event.event_type Event.data isinstance_dict].
  rewrite String.eqb_refl. cbn [andb]. run. rewrite Hws.
  cbn [fst snd self calls].
  destruct (send_websocket_command env (calls w) ws _ _) as [r | e].
  - cbn [snd calls]. now rewrite sends_app.
  - destruct (Exn.isinstance e Exn.ValueError); cbn [snd calls];
      rewrite !sends_app; cbn; now rewrite ?app_nil_r.
Qed.

(** C7.  With a transport, and the two command kinds being two, a
    secured-command event whose payload is a dict makes exactly one send
    call, [send_secured__websocket_command] with the payload's device id,
    value and code, each replaced by [DEFAULT] when absent. *)
Theorem secured_command_sends_once (w : World) (ws : LoxWs.t)
  (d : list (string * PyVal)) :
  api (self w) = Some ws ->
  SECUREDSENDDOMAIN <> SENDDOMAIN ->
  sends (calls (snd (listen (Event.mk SECUREDSENDDOMAIN (VDict d)) w)))
  = sends (calls w)
    ++ [Call_send_secured__websocket_command
          (dict_get d ATTR_UUID DEFAULT) (dict_get d ATTR_VALUE DEFAULT)
          (dict_get d ATTR_CODE DEFAULT)].
Proof.
  intros Hws Hkinds.
  unfold listen_loxone_send, listen_loxone_send_body.
  cbn [Event.event_type Event.data isinstance_dict].
  apply String.eqb_neq in Hkinds. rewrite Hkinds, String.eqb_refl.
  cbn [andb]. run. rewrite Hws.
  cbn [fst snd self calls].
  destruct (send_secured__websocket_command env (calls w) ws _ _ _)
    as [r | e].
  - cbn [snd calls]. now rewrite sends_app.
  - destruct (Exn.isinstance e Exn.ValueError); cbn [snd calls];
      rewrite !sends_app; cbn; now rewrite ?app_nil_r.
Qed.


End Bridge.

Lemma deliver_survives_bad_values :
  deliver Sample.ATTR_CODE Sample.ATTR_UUID Sample.ATTR_VALUE Sample.DEFAULT
          Sample.SECUREDSENDDOMAIN Sample.SENDDOMAIN Sample.env_bad_value
          [Sample.plain_on; Sample.stopping; Sample.secured_on] Sample.ready
  = (Ok tt,
     mkWorld (self Sample.ready)
       [Call_send_websocket_command (VStr "abc") (VStr "on");
        Call_print_exc Exn.ValueError;
        Call_send_secured__websocket_command
          (VStr "abc") (VStr "on") (VStr "1234");
        Call_print_exc Exn.UnicodeError]).
Proof.
  destruct (listen_loxone_send_catches_ValueError
              Sample.ATTR_CODE Sample.ATTR_UUID Sample.ATTR_VALUE
              Sample.DEFAULT Sample.SECUREDSENDDOMAIN Sample.SENDDOMAIN
              Sample.env_bad_value Sample.ready)
    as (_ & Hsurvives & _).
  destruct (Hsurvives Sample.ws
              [Sample.plain_on; Sample.stopping; Sample.secured_on])
    as [_ Hrun].
  - reflexivity.
  - split; simpl; intros; injection H as <-; reflexivity.
  - rewrite Hrun. reflexivity.
Defined.

(** [PlainCommand{deviceId:"abc", value:"on"}] gives exactly one
    [send_websocket_command("abc", "on")]. *)
Lemma plain_on_sends_abc_on :
  sends (calls (snd (listen_loxone_send
                       Sample.ATTR_CODE Sample.ATTR_UUID Sample.ATTR_VALUE
                       Sample.DEFAULT Sample.SECUREDSENDDOMAIN
                       Sample.SENDDOMAIN Sample.env
                       Sample.plain_on Sample.ready)))
  = [Call_send_websocket_command (VStr "abc") (VStr "on")].
Proof.
  apply (plain_command_sends_once
           Sample.ATTR_CODE Sample.ATTR_UUID Sample.ATTR_VALUE
           Sample.DEFAULT Sample.SECUREDSENDDOMAIN Sample.SENDDOMAIN
           Sample.env Sample.ready Sample.ws
           [(Sample.ATTR_UUID, VStr "abc"); (Sample.ATTR_VALUE, VStr "on")]).
  reflexivity.
Defined.

(** [SecuredCommand{deviceId:"abc", value:"on", code:"1234"}] gives
    exactly one [send_secured__websocket_command("abc", "on", "1234")]. *)
Lemma secured_on_sends_abc_on_1234 :
  sends (calls (snd (listen_loxone_send
                       Sample.ATTR_CODE Sample.ATTR_UUID Sample.ATTR_VALUE
                       Sample.DEFAULT Sample.SECUREDSENDDOMAIN
                       Sample.SENDDOMAIN Sample.env
                       Sample.secured_on Sample.ready)))
  = [Call_send_secured__websocket_command
       (VStr "abc") (VStr "on") (VStr "1234")].
Proof.
  apply (secured_command_sends_once
           Sample.ATTR_CODE Sample.ATTR_UUID Sample.ATTR_VALUE
           Sample.DEFAULT Sample.SECUREDSENDDOMAIN Sample.SENDDOMAIN
           Sample.env Sample.ready Sample.ws
           [(Sample.ATTR_UUID, VStr "abc"); (Sample.ATTR_VALUE, VStr "on");
            (Sample.ATTR_CODE, VStr "1234")]).
  - reflexivity.
  - discriminate.
Defined.

Example absent_fields_default :
  sends (calls (snd (listen_loxone_send
                       Sample.ATTR_CODE Sample.ATTR_UUID Sample.ATTR_VALUE
                       Sample.DEFAULT Sample.SECUREDSENDDOMAIN
                       Sample.SENDDOMAIN Sample.env
                       (Event.mk Sample.SENDDOMAIN (VDict []))
                       Sample.ready)))
  = [Call_send_websocket_command Sample.DEFAULT Sample.DEFAULT].
Proof. reflexivity. Qed.

(** A service call with [{deviceId:"abc", value:"off"}] and the
    plain-command event with that payload: the same transport call. *)
Example service_call_off :
  let payload :=
    VDict [(Sample.ATTR_UUID, VStr "abc"); (Sample.ATTR_VALUE, VStr "off")] in
  handle_websocket_command Sample.ATTR_UUID Sample.ATTR_VALUE Sample.DEFAULT
    Sample.env (ServiceCall.mk payload) Sample.ready
  = listen_loxone_send Sample.ATTR_CODE Sample.ATTR_UUID Sample.ATTR_VALUE
      Sample.DEFAULT Sample.SECUREDSENDDOMAIN Sample.SENDDOMAIN Sample.env
      (Event.mk Sample.SENDDOMAIN payload) Sample.ready
  /\ calls (snd (handle_websocket_command Sample.ATTR_UUID Sample.ATTR_VALUE
                   Sample.DEFAULT Sample.env (ServiceCall.mk payload)
                   Sample.ready))
     = [Call_send_websocket_command (VStr "abc") (VStr "off")].
Proof. split; reflexivity. Qed.



(** C5, as stated, fails: when the transport has lost its connection the
    send's [ConnectionResetError] leaves the handler, and the second of
    two events is not handled. *)
Lemma listen_loxone_send_offline_raises :
  fst (listen_loxone_send Sample.ATTR_CODE Sample.ATTR_UUID
         Sample.ATTR_VALUE Sample.DEFAULT Sample.SECUREDSENDDOMAIN
         Sample.SENDDOMAIN More.env_offline Sample.plain_on Sample.ready)
  = Raise Exn.ConnectionResetError
  /\ deliver Sample.ATTR_CODE Sample.ATTR_UUID Sample.ATTR_VALUE
       Sample.DEFAULT Sample.SECUREDSENDDOMAIN Sample.SENDDOMAIN
       More.env_offline [Sample.plain_on; Sample.secured_on] Sample.ready
     = (Raise Exn.ConnectionResetError,
        mkWorld (self Sample.ready)
          [Call_send_websocket_command (VStr "abc") (VStr "on")]).
Proof. split; reflexivity. Qed.

(** Errors that are no value-conversion errors leave the handler. *)
Example listen_loxone_send_lets_others_through :
  fst (listen_loxone_send Sample.ATTR_CODE Sample.ATTR_UUID
         Sample.ATTR_VALUE Sample.DEFAULT Sample.SECUREDSENDDOMAIN
         Sample.SENDDOMAIN Sample.env Sample.plain_on Sample.fresh)
  = Raise Exn.AttributeError.
Proof. reflexivity. Qed.

(** ** The device registry *)

Section Registry.

Variable DOMAIN : string.
Variable MINISERVER_TYPES : list (Z * string).
Variable UNKNOWN_TYPE : string.

(** C4, as the code has it.  [miniserver_type] gives the value found at
    [document["msInfo"]["miniserverType"]] as it is ([None] when the path
    does not resolve), not a label.  The label is made where the device
    registry entry of the miniserver is built: its [model] is
    [get_miniserver_type] of what the accessor gave, the label of a known
    code and the fallback label for anything else. *)
Theorem miniserver_type_is_raw_code (w : World) (host : PyVal) :
  dict_find (ConfigEntry.options (config_entry (self w))) CONF_HOST
  = Some host ->
  hashable host = true ->
  hashable (at_path (self w) "msInfo" "serialNr") = true ->
  let ms := self w in
  let entry_id := ConfigEntry.entry_id (config_entry ms) in
  miniserver_type ms = Ok (at_path ms "msInfo" "miniserverType")
  /\ async_update_device_registry DOMAIN MINISERVER_TYPES UNKNOWN_TYPE w
     = (Ok VNone,
        mkWorld ms
          (calls w
           ++ [Call_async_get_or_create
                 (mkDeviceEntry entry_id [(CONNECTION_NETWORK_MAC, host)] []
                                VNone VNone VNone VNone);
               Call_async_get_or_create
                 (mkDeviceEntry entry_id []
                    [(DOMAIN, at_path ms "msInfo" "serialNr")]
                    (at_path ms "msInfo" "msName") (VStr "Loxone")
                    (joined_version ms)
                    (get_miniserver_type MINISERVER_TYPES UNKNOWN_TYPE
                       (at_path ms "msInfo" "miniserverType")))])).
Proof.
  intros Hhost Hh Hs ms entry_id. subst ms entry_id.
  split; [apply miniserver_type_at_path |].
  unfold async_update_device_registry. run.
  rewrite Hhost. unfold set_of_pair. rewrite Hh. run.
  rewrite serial_at_path, name_at_path, software_version_joined,
    miniserver_type_at_path.
  run. rewrite Hs. run.
  rewrite <- app_assoc. reflexivity.
Qed.

End Registry.

(** C4, as stated, fails: the accessor gives the code, which no
    classification gives. *)
Lemma miniserver_type_not_a_label :
  let ms :=
    with_document no_entry
      (VDict [("msInfo", VDict [("miniserverType", VInt 2)])]) in
  miniserver_type ms = Ok (VInt 2)
  /\ forall known fallback t,
       miniserver_type ms <> Ok (get_miniserver_type known fallback t).
Proof.
  split; [reflexivity |].
  intros known fallback t. cbn. destruct t; discriminate.
Qed.

Lemma registry_model_on_sample :
  miniserver_type (self Sample.ready) = Ok (VInt 2)
  /\ snd (async_update_device_registry Sample.DOMAIN Sample.MINISERVER_TYPES
            Sample.UNKNOWN_TYPE Sample.ready)
     = mkWorld (self Sample.ready)
         [Call_async_get_or_create
            (mkDeviceEntry (VStr "entry-1")
               [(CONNECTION_NETWORK_MAC, VStr "192.168.1.2")] []
               VNone VNone VNone VNone);
          Call_async_get_or_create
            (mkDeviceEntry (VStr "entry-1") []
               [(Sample.DOMAIN, VStr "504F94A00001")]
               (VStr "Home") (VStr "Loxone") (VStr "10.3.2")
               (VStr "Miniserver Gen 2"))].
Proof.
  destruct (miniserver_type_is_raw_code
              Sample.DOMAIN Sample.MINISERVER_TYPES Sample.UNKNOWN_TYPE
              Sample.ready (VStr "192.168.1.2"))
    as [Hraw Hreg]; try reflexivity.
  split; [exact Hraw |].
  rewrite Hreg. reflexivity.
Defined.

Example registry_model_unknown_code :
  get_miniserver_type Sample.MINISERVER_TYPES Sample.UNKNOWN_TYPE (VInt 99)
  = VStr "Unknown Type"
  /\ get_miniserver_type Sample.MINISERVER_TYPES Sample.UNKNOWN_TYPE VNone
     = VStr "Unknown Type".
Proof. split; reflexivity. Qed.

(** * More properties *)

(** ** Setup *)

Section SetupMore.

Variable env : Env.

Lemma errors_logged_app (a b : list Call) :
  errors_logged (a ++ b) = (errors_logged a + errors_logged b)%nat.
Proof. unfold errors_logged. now rewrite filter_app, length_app. Qed.

Lemma same_entry_configured (ms ms' : MiniServer) :
  config_entry ms' = config_entry ms -> configured ms' = configured ms.
Proof. unfold configured. now intros ->. Qed.

Lemma same_entry_fetcher (ms ms' : MiniServer) :
  config_entry ms' = config_entry ms -> fetcher env ms' = fetcher env ms.
Proof. unfold fetcher, option_of. now intros ->. Qed.

Lemma same_entry_transport (ms ms' : MiniServer) (app : LoxApp.t) :
  config_entry ms' = config_entry ms -> transport ms' app = transport ms app.
Proof. unfold transport, option_of. now intros ->. Qed.

(** X1.  A setup does not look at what an earlier setup left: from two states
    with the same config entry and the same record of calls, whatever
    their fetcher, transport and callback, [async_setup] ends alike,
    makes the same calls and leaves the same fetcher. *)
Theorem async_setup_starts_afresh (w w' : World) :
  configured (self w) = true ->
  config_entry (self w') = config_entry (self w) ->
  calls w' = calls w ->
  fst (async_setup env w') = fst (async_setup env w)
  /\ calls (snd (async_setup env w')) = calls (snd (async_setup env w))
  /\ lox_config (self (snd (async_setup env w')))
     = lox_config (self (snd (async_setup env w)))
  /\ config_entry (self (snd (async_setup env w'))) = config_entry (self w).
Proof.
  intros Hc Hentry Hcalls.
  assert (Hc' : configured (self w') = true)
    by now rewrite (same_entry_configured _ _ Hentry).
  rewrite (async_setup_run env w Hc), (async_setup_run env w' Hc').
  unfold setup_outcome.
  rewrite (same_entry_fetcher _ _ Hentry), Hcalls.
  destruct (getJson env (calls w) (fetcher env (self w)))
    as [[code | e] app']; cbn [fst snd].
  - rewrite (same_entry_transport _ _ app' Hentry).
    destruct (status_ok code).
    + destruct (async_init env _ (transport (self w) app')) as [res | e].
      * destruct (init_failed res); cbn; now rewrite Hentry.
      * unfold caught. destruct (Exn.isinstance e Exn.ConnectionError);
          cbn; now rewrite Hentry.
    + cbn. now rewrite Hentry.
  - unfold caught. destruct (Exn.isinstance e Exn.ConnectionError);
      cbn; now rewrite Hentry.
Qed.

(** X2.  An entry that lacks one of the four options makes [async_setup] raise
    [KeyError]: the lookup is inside the [try], but only
    [ConnectionError] is caught.  Nothing is fetched or logged, and the
    transport is left as it was. *)
Theorem async_setup_missing_option (w : World) :
  configured (self w) = false ->
  fst (async_setup env w) = Raise Exn.KeyError
  /\ calls (snd (async_setup env w)) = calls w
  /\ api (self (snd (async_setup env w))) = api (self w).
Proof.
  unfold configured. cbn [forallb]. intros Hmissing.
  unfold async_setup, async_setup_body. run.
  cbn [set_lox_config config_entry lox_config self calls].
  destruct (dict_find (ConfigEntry.options (config_entry (self w)))
              CONF_USERNAME) as [u |]; cbn; [| now repeat split].
  destruct (dict_find (ConfigEntry.options (config_entry (self w)))
              CONF_PASSWORD) as [p |]; cbn; [| now repeat split].
  destruct (dict_find (ConfigEntry.options (config_entry (self w)))
              CONF_HOST) as [h |]; cbn; [| now repeat split].
  destruct (dict_find (ConfigEntry.options (config_entry (self w)))
              CONF_PORT) as [o |]; cbn; [| now repeat split].
  discriminate Hmissing.
Qed.

(** X3.  [async_setup] ends in one of three ways: [False] with exactly one
    error logged, [True] with none, or an exception that is no
    [ConnectionError] with none. *)
Theorem async_setup_three_ways (w : World) :
  configured (self w) = true ->
  let r := async_setup env w in
  (fst r = Ok (VBool false)
   /\ errors_logged (calls (snd r)) = S (errors_logged (calls w)))
  \/ (fst r = Ok (VBool true)
      /\ errors_logged (calls (snd r)) = errors_logged (calls w))
  \/ (exists e,
        fst r = Raise e
        /\ Exn.isinstance e Exn.ConnectionError = false
        /\ errors_logged (calls (snd r)) = errors_logged (calls w)).
Proof.
  intros Hc r. subst r. rewrite (async_setup_run env w Hc).
  unfold setup_outcome.
  destruct (getJson env (calls w) (fetcher env (self w)))
    as [[code | e] app']; cbn [fst snd].
  - destruct (status_ok code).
    + destruct (async_init env _ (transport (self w) app')) as [res | e].
      * destruct (init_failed res); cbn [fst snd calls].
        -- left. split; [reflexivity |].
           rewrite !errors_logged_app. cbn. now rewrite !Nat.add_0_r, Nat.add_1_r.
        -- right. left. split; [reflexivity |].
           rewrite !errors_logged_app. cbn. now rewrite !Nat.add_0_r.
      * unfold caught.
        destruct (Exn.isinstance e Exn.ConnectionError) eqn:He;
          cbn [fst snd calls].
        -- left. split; [reflexivity |].
           rewrite !errors_logged_app. cbn. now rewrite !Nat.add_0_r, Nat.add_1_r.
        -- right. right. exists e. repeat split; trivial.
           rewrite !errors_logged_app. cbn. now rewrite !Nat.add_0_r.
    + left. cbn [fst snd calls]. split; [reflexivity |].
      rewrite !errors_logged_app. cbn. now rewrite Nat.add_0_r, Nat.add_1_r.
  - unfold caught.
    destruct (Exn.isinstance e Exn.ConnectionError) eqn:He;
      cbn [fst snd calls].
    + left. split; [reflexivity |].
      rewrite !errors_logged_app. cbn. now rewrite Nat.add_0_r, Nat.add_1_r.
    + right. right. exists e. repeat split; trivial.
      rewrite !errors_logged_app. cbn. now rewrite Nat.add_0_r.
Qed.

(** X4.  What [async_setup] leaves as the transport.  On a status of 200 or
    ["200"] it is a new one, built from the options and the fetched
    document, its callback slot empty, whether or not its initialization
    then succeeds; on any other status, and when the fetch raises, the
    transport is the one there was before. *)
Theorem async_setup_transport (w : World) :
  configured (self w) = true ->
  let fetched := getJson env (calls w) (fetcher env (self w)) in
  let after := self (snd (async_setup env w)) in
  (forall request_code,
      fst fetched = Ok request_code ->
      request_code = VInt 200 \/ request_code = VStr "200" ->
      api after = Some (transport (self w) (snd fetched))
      /\ LoxWs.message_call_back (transport (self w) (snd fetched)) = None)
  /\ (forall request_code,
        fst fetched = Ok request_code ->
        request_code <> VInt 200 -> request_code <> VStr "200" ->
        api after = api (self w))
  /\ (forall e, fst fetched = Raise e -> api after = api (self w)).
Proof.
  intros Hc fetched after. subst after.
  rewrite (async_setup_run env w Hc). unfold setup_outcome. fold fetched.
  repeat split.
  - rewrite H. apply status_ok_true in H0. rewrite H0.
    destruct (async_init env _ _) as [res | e].
    + destruct (init_failed res); reflexivity.
    + unfold caught. destruct (Exn.isinstance e Exn.ConnectionError);
        reflexivity.
  - intros code Hf Hn Hs. rewrite Hf.
    assert (Hko : status_ok code = false) by now apply status_ok_false.
    now rewrite Hko.
  - intros e Hf. rewrite Hf. unfold caught.
    destruct (Exn.isinstance e Exn.ConnectionError); reflexivity.
Qed.

(** X5.  An exception of [async_init] is treated as one of the fetch: a
    [ConnectionError] makes [async_setup] log an error and return
    [False], any other exception leaves [async_setup]. *)
Theorem async_setup_init_raises (w : World) (request_code : PyVal)
  (e : exn) :
  configured (self w) = true ->
  let app := fetcher env (self w) in
  let fetched := getJson env (calls w) app in
  fst fetched = Ok request_code ->
  request_code = VInt 200 \/ request_code = VStr "200" ->
  async_init env (calls w ++ [Call_getJson app])
             (transport (self w) (snd fetched)) = Raise e ->
  fst (async_setup env w)
  = if Exn.isinstance e Exn.ConnectionError then Ok (VBool false)
    else Raise e.
Proof.
  intros Hc app fetched Hf Hok Hi.
  rewrite (async_setup_run env w Hc). unfold setup_outcome.
  fold app. fold fetched. rewrite Hf.
  apply status_ok_true in Hok. rewrite Hok, Hi. unfold caught.
  destruct (Exn.isinstance e Exn.ConnectionError); reflexivity.
Qed.

(** X6.  After [async_setup], however it ended, the identity accessors read
    the document the fetch left: the fetcher is replaced before the
    status is looked at. *)
Theorem accessors_after_setup (w : World) :
  configured (self w) = true ->
  let fetched := getJson env (calls w) (fetcher env (self w)) in
  let after := self (snd (async_setup env w)) in
  let doc := LoxApp.json (snd fetched) in
  document after = Some doc
  /\ serial after = serial (with_document no_entry doc)
  /\ name after = name (with_document no_entry doc)
  /\ software_version after = software_version (with_document no_entry doc)
  /\ miniserver_type after = miniserver_type (with_document no_entry doc).
Proof.
  intros Hc fetched after doc.
  assert (Hlox : lox_config after = Some (snd fetched)).
  { subst after. rewrite (async_setup_run env w Hc). unfold setup_outcome.
    fold fetched.
    destruct (fst fetched) as [code | e].
    - destruct (status_ok code).
      + destruct (async_init env _ _) as [res | e].
        * destruct (init_failed res); reflexivity.
        * unfold caught. destruct (Exn.isinstance e Exn.ConnectionError);
            reflexivity.
      + reflexivity.
    - unfold caught. destruct (Exn.isinstance e Exn.ConnectionError);
        reflexivity. }
  unfold document, serial, name, software_version, miniserver_type,
    lox_config_json.
  rewrite Hlox. repeat split.
Qed.

End SetupMore.

(** ** Lifecycle and bridge *)

Lemma but_debug_app (a b : list Call) :
  but_debug (a ++ b) = but_debug a ++ but_debug b.
Proof. apply filter_app. Qed.

Section BridgeMore.

Variables ATTR_CODE ATTR_UUID ATTR_VALUE : string.
Variable DEFAULT : PyVal.
Variables EVENT SECUREDSENDDOMAIN SENDDOMAIN : string.
Variable env : Env.

Local Abbreviation listen :=
  (listen_loxone_send ATTR_CODE ATTR_UUID ATTR_VALUE DEFAULT
                      SECUREDSENDDOMAIN SENDDOMAIN env).
Local Abbreviation service :=
  (handle_websocket_command ATTR_UUID ATTR_VALUE DEFAULT env).
Local Abbreviation run_of :=
  (deliver ATTR_CODE ATTR_UUID ATTR_VALUE DEFAULT
           SECUREDSENDDOMAIN SENDDOMAIN env).

(** X7.  A callback registered after another replaces it: the transport's
    slot holds the last one.  Registering makes no call and leaves the
    [callback] field of the [MiniServer] as it was. *)
Theorem async_set_callback_replaces (w : World) (ws : LoxWs.t)
  (first second : Callback) :
  api (self w) = Some ws ->
  let r := (async_set_callback first ;;; async_set_callback second) w in
  fst r = Ok VNone
  /\ option_map LoxWs.message_call_back (api (self (snd r)))
     = Some (Some second)
  /\ calls (snd r) = calls w
  /\ callback (self (snd r)) = callback (self w).
Proof.
  intros Hws r.
  assert (Hr : r = (Ok VNone,
                    mkWorld
                      (set_api (LoxWs.set_message_call_back second
                                  (LoxWs.set_message_call_back first ws))
                               (set_api
                                  (LoxWs.set_message_call_back first ws)
                                  (self w)))
                      (calls w))).
  { subst r. unfold bind.
    rewrite (async_set_callback_stores first w ws Hws).
    now rewrite (async_set_callback_stores second
                   (mkWorld
                      (set_api (LoxWs.set_message_call_back first ws)
                               (self w))
                      (calls w))
                   (LoxWs.set_message_call_back first ws) eq_refl). }
  rewrite Hr. repeat split.
Qed.

Lemma start_loxone_run (event : Event.t) (w : World) :
  start_loxone env event w = started_once env w.
Proof.
  unfold start_loxone, started_once. run.
  destruct (api (self w)) as [ws |]; [| reflexivity].
  cbn [fst snd]. destruct (start env (calls w) ws); reflexivity.
Qed.

(** X8.  [shutdown] and [stop_loxone] are the same operation but for the
    debug log: in every state they end alike, leave the same object and,
    the debug log apart, the same record of calls. *)
Theorem shutdown_is_stop_unlogged (event event' : Event.t) (w : World) :
  fst (shutdown env event w) = fst (stop_loxone env event' w)
  /\ self (snd (shutdown env event w)) = self (snd (stop_loxone env event' w))
  /\ but_debug (calls (snd (shutdown env event w)))
     = but_debug (calls (snd (stop_loxone env event' w))).
Proof.
  rewrite stop_loxone_run. unfold shutdown, stopped_once, bind.
  rewrite api_stop_run.
  destruct (api (self w)) as [ws |]; [| repeat split].
  destruct (stop env (calls w) ws) as [r | e]; run; [| repeat split].
  repeat split. rewrite !but_debug_app. reflexivity.
Qed.

(** X9.  With no transport, the handlers of a command raise [AttributeError]
    and change nothing: the payload is read, the send is not made. *)
Theorem commands_need_transport (w : World) (d : list (string * PyVal)) :
  api (self w) = None ->
  service (ServiceCall.mk (VDict d)) w = (Raise Exn.AttributeError, w)
  /\ listen (Event.mk SENDDOMAIN (VDict d)) w
     = (Raise Exn.AttributeError, w)
  /\ listen (Event.mk SECUREDSENDDOMAIN (VDict d)) w
     = (Raise Exn.AttributeError, w).
Proof.
  intros Hnone.
  unfold handle_websocket_command, listen_loxone_send,
    listen_loxone_send_body.
  cbn [Event.event_type Event.data ServiceCall.data isinstance_dict].
  rewrite !String.eqb_refl, !andb_true_r.
  repeat split.
  - run. now rewrite Hnone.
  - cbn [andb]. run. now rewrite Hnone.
  - destruct (String.eqb SECUREDSENDDOMAIN SENDDOMAIN);
      run; now rewrite Hnone.
Qed.

(** X10.  An event the handler has no branch for, of another kind or with a
    payload that is no dict, is passed over in every state, with or
    without a transport: no call, no change, no exception. *)
Theorem listen_loxone_send_ignores (event : Event.t) (w : World) :
  is_command SECUREDSENDDOMAIN SENDDOMAIN event = false ->
  listen event w = (Ok VNone, w).
Proof.
  unfold is_command, listen_loxone_send, listen_loxone_send_body.
  destruct event as [kind payload]. cbn [Event.event_type Event.data].
  intros Hno.
  destruct (isinstance_dict payload).
  - rewrite andb_true_r in Hno. apply orb_false_elim in Hno as [H1 H2].
    rewrite H1, H2. destruct w; reflexivity.
  - rewrite !andb_false_r. destruct w; reflexivity.
Qed.

(** X11.  An exception of the plain send that is no [ValueError] leaves the
    handler as it is, after the one send call and without
    [traceback.print_exc]. *)
Theorem listen_loxone_send_lets_through (w : World) (ws : LoxWs.t)
  (d : list (string * PyVal)) (e : exn) :
  api (self w) = Some ws ->
  send_websocket_command env (calls w) ws
    (dict_get d ATTR_UUID DEFAULT) (dict_get d ATTR_VALUE DEFAULT)
  = Raise e ->
  Exn.isinstance e Exn.ValueError = false ->
  listen (Event.mk SENDDOMAIN (VDict d)) w
  = (Raise e,
     mkWorld (self w)
       (calls w
        ++ [Call_send_websocket_command (dict_get d ATTR_UUID DEFAULT)
                                        (dict_get d ATTR_VALUE DEFAULT)])).
Proof.
  intros Hws Hsend He.
  unfold listen_loxone_send, listen_loxone_send_body.
  cbn [Event.event_type Event.data isinstance_dict].
  rewrite String.eqb_refl. cbn [andb]. run. rewrite Hws.
  cbn [fst snd self calls]. rewrite Hsend. now rewrite He.
Qed.

(** X12.  The service handler has no [try]: it returns [None] when the send
    returns and raises whatever the send raises, a [ValueError] too.  A
    payload that is no dict has no [get]: [AttributeError], and no
    send. *)
Theorem handle_websocket_command_outcome (w : World) (payload : PyVal) :
  service (ServiceCall.mk payload) w
  = match payload, api (self w) with
    | VDict d, Some ws =>
        let device_uuid := dict_get d ATTR_UUID DEFAULT in
        let value := dict_get d ATTR_VALUE DEFAULT in
        (match send_websocket_command env (calls w) ws device_uuid value with
         | Ok _ => Ok VNone
         | Raise e => Raise e
         end,
         mkWorld (self w)
           (calls w ++ [Call_send_websocket_command device_uuid value]))
    | _, _ => (Raise Exn.AttributeError, w)
    end.
Proof.
  unfold handle_websocket_command. cbn [ServiceCall.data].
  destruct payload as [| | | | | d]; try reflexivity.
  run. destruct (api (self w)) as [ws |]; [| reflexivity].
  cbn [fst snd]. destruct (send_websocket_command env (calls w) ws _ _);
    reflexivity.
Qed.

(** X13.  None of the handlers touches the [MiniServer] object: whatever the
    event, the message or the call, and however they end, the fields are
    as before. *)
Theorem handlers_keep_self (w : World) (event : Event.t) (message : PyVal)
  (call : ServiceCall.t) :
  self (snd (listen event w)) = self w
  /\ self (snd (service call w)) = self w
  /\ self (snd (start_loxone env event w)) = self w
  /\ self (snd (stop_loxone env event w)) = self w
  /\ self (snd (shutdown env event w)) = self w
  /\ self (snd (async_loxone_callback EVENT message w)) = self w.
Proof.
  repeat split.
  - unfold listen_loxone_send, listen_loxone_send_body.
    destruct event as [kind payload]. cbn [Event.event_type Event.data].
    destruct payload as [| | | | | d];
      try (cbn [isinstance_dict]; rewrite !andb_false_r; reflexivity).
    cbn [isinstance_dict]. rewrite !andb_true_r.
    destruct (String.eqb kind SENDDOMAIN).
    + run. destruct (api (self w)) as [ws |]; [| reflexivity].
      cbn [fst snd self calls].
      destruct (send_websocket_command env (calls w) ws _ _) as [r | e];
        [reflexivity |].
      destruct (Exn.isinstance e Exn.ValueError); reflexivity.
    + destruct (String.eqb kind SECUREDSENDDOMAIN); [| reflexivity].
      run. destruct (api (self w)) as [ws |]; [| reflexivity].
      cbn [fst snd self calls].
      destruct (send_secured__websocket_command env (calls w) ws _ _ _)
        as [r | e]; [reflexivity |].
      destruct (Exn.isinstance e Exn.ValueError); reflexivity.
  - destruct call as [payload]. rewrite handle_websocket_command_outcome.
    destruct payload; try reflexivity.
    destruct (api (self w)); reflexivity.
  - rewrite start_loxone_run. unfold started_once.
    destruct (api (self w)); reflexivity.
  - rewrite stop_loxone_run. unfold stopped_once.
    destruct (api (self w)) as [ws |]; [| reflexivity].
    destruct (stop env (calls w) ws); reflexivity.
  - unfold shutdown, bind. rewrite api_stop_run.
    destruct (api (self w)) as [ws |]; [| reflexivity].
    destruct (stop env (calls w) ws); reflexivity.
Qed.

Lemma plain_run (d : list (string * PyVal)) (w : World) (ws : LoxWs.t) :
  api (self w) = Some ws ->
  only_ValueError env ws ->
  exists w',
    listen (Event.mk SENDDOMAIN (VDict d)) w = (Ok VNone, w')
    /\ self w' = self w
    /\ sends (calls w')
       = sends (calls w)
         ++ [Call_send_websocket_command (dict_get d ATTR_UUID DEFAULT)
                                         (dict_get d ATTR_VALUE DEFAULT)].
Proof.
  intros Hws Honly. eexists. split.
  - apply (listen_run _ _ _ _ _ _ _ _ _ ws Hws Honly).
  - split; [reflexivity |]. cbn [calls]. rewrite sends_app. f_equal.
    unfold handled. cbn [Event.event_type Event.data].
    rewrite String.eqb_refl.
    destruct (send_websocket_command env (calls w) ws _ _); reflexivity.
Qed.

Lemma plain_runs (payloads : list (list (string * PyVal))) (w : World)
  (ws : LoxWs.t) :
  api (self w) = Some ws ->
  only_ValueError env ws ->
  exists w',
    run_of (map (fun d => Event.mk SENDDOMAIN (VDict d)) payloads) w
    = (Ok tt, w')
    /\ sends (calls w')
       = sends (calls w)
         ++ map (fun d =>
                   Call_send_websocket_command
                     (dict_get d ATTR_UUID DEFAULT)
                     (dict_get d ATTR_VALUE DEFAULT))
                payloads.
Proof.
  intros Hws Honly. revert w Hws.
  induction payloads as [| d rest IH]; intros w Hws.
  - exists w. cbn. now rewrite app_nil_r.
  - destruct (plain_run d w ws Hws Honly) as (w' & Hrun & Hself & Hsends).
    rewrite <- Hself in Hws.
    destruct (IH w' Hws) as (w'' & Hrest & Hall).
    exists w''. cbn [map deliver]. unfold bind. rewrite Hrun.
    split; [exact Hrest |].
    rewrite Hall, Hsends, <- app_assoc. reflexivity.
Qed.

(** X14.  Plain commands are forwarded one by one, in the order they come:
    a run of plain-command events makes one send for each, repeated
    commands to one device included. *)
Theorem plain_commands_forwarded_in_order (w : World) (ws : LoxWs.t)
  (payloads : list (list (string * PyVal))) :
  api (self w) = Some ws ->
  only_ValueError env ws ->
  let r :=
    run_of (map (fun d => Event.mk SENDDOMAIN (VDict d)) payloads) w in
  fst r = Ok tt
  /\ sends (calls (snd r))
     = sends (calls w)
       ++ map (fun d =>
                 Call_send_websocket_command (dict_get d ATTR_UUID DEFAULT)
                                             (dict_get d ATTR_VALUE DEFAULT))
              payloads.
Proof.
  intros Hws Honly r.
  destruct (plain_runs payloads w ws Hws Honly) as (w' & Hrun & Hall).
  subst r. rewrite Hrun. split; [reflexivity | exact Hall].
Qed.

(** X15.  Inbound messages are republished as they come: a run of messages
    gives one [async_fire] of the one event type for each, in order and
    unchanged, in every state and without an exception. *)
Theorem inbound_messages_republished (messages : list PyVal) (w : World) :
  relay EVENT messages w
  = (Ok tt,
     mkWorld (self w) (calls w ++ map (Call_async_fire EVENT) messages)).
Proof.
  revert w. induction messages as [| m rest IH]; intros w.
  - cbn. rewrite app_nil_r. destruct w; reflexivity.
  - cbn [relay map]. unfold bind at 1. unfold async_loxone_callback. run.
    rewrite IH. cbn [self calls]. now rewrite <- app_assoc.
Qed.

(** X16.  After a setup that returned [True], [start_loxone] reaches the
    transport that setup built: it makes exactly one [start] call on it
    and raises only what that call raises. *)
Theorem start_after_setup (event : Event.t) (w : World) :
  configured (self w) = true ->
  fst (async_setup env w) = Ok (VBool true) ->
  let fetched := getJson env (calls w) (fetcher env (self w)) in
  let ready := snd (async_setup env w) in
  let ws := transport (self w) (snd fetched) in
  api (self ready) = Some ws
  /\ start_loxone env event ready
     = (match start env (calls ready) ws with
        | Ok _ => Ok VNone
        | Raise e => Raise e
        end,
        mkWorld (self ready) (calls ready ++ [Call_start])).
Proof.
  intros Hc Htrue fetched ready ws.
  assert (Hapi : api (self ready) = Some ws).
  { subst ready ws. revert Htrue.
    rewrite (async_setup_run env w Hc). unfold setup_outcome. fold fetched.
    destruct (fst fetched) as [code | e].
    - destruct (status_ok code); [| discriminate].
      destruct (async_init env _ _) as [res | e].
      + destruct (init_failed res); [discriminate | reflexivity].
      + unfold caught. destruct (Exn.isinstance e Exn.ConnectionError);
          discriminate.
    - unfold caught. destruct (Exn.isinstance e Exn.ConnectionError);
        discriminate. }
  split; [exact Hapi |].
  rewrite start_loxone_run. unfold started_once. now rewrite Hapi.
Qed.

End BridgeMore.

(** ** The device registry *)

Section RegistryMore.

Variable DOMAIN : string.
Variable MINISERVER_TYPES : list (Z * string).
Variable UNKNOWN_TYPE : string.

Local Abbreviation register :=
  (async_update_device_registry DOMAIN MINISERVER_TYPES UNKNOWN_TYPE).

(** X17.  A serial number that cannot be hashed, a list or a dict in the
    document, stops the registration half way: the host entry is
    created, then building the identifiers raises [TypeError] and the
    miniserver entry is never created. *)
Theorem registry_stops_at_unhashable_serial (w : World) (host : PyVal) :
  dict_find (ConfigEntry.options (config_entry (self w))) CONF_HOST
  = Some host ->
  hashable host = true ->
  hashable (at_path (self w) "msInfo" "serialNr") = false ->
  register w
  = (Raise Exn.TypeError,
     mkWorld (self w)
       (calls w
        ++ [Call_async_get_or_create
              (mkDeviceEntry (ConfigEntry.entry_id (config_entry (self w)))
                 [(CONNECTION_NETWORK_MAC, host)] []
                 VNone VNone VNone VNone)])).
Proof.
  intros Hhost Hh Hs.
  unfold async_update_device_registry. run.
  rewrite Hhost. unfold set_of_pair. rewrite Hh. run.
  rewrite serial_at_path. run. rewrite Hs. reflexivity.
Qed.

(** X18.  Without the host option nothing is registered: [KeyError] when the
    option is missing, [TypeError] when its value cannot be hashed, and
    no registry call in either case. *)
Theorem registry_needs_host (w : World) :
  match dict_find (ConfigEntry.options (config_entry (self w))) CONF_HOST with
  | None => register w = (Raise Exn.KeyError, w)
  | Some host =>
      hashable host = false -> register w = (Raise Exn.TypeError, w)
  end.
Proof.
  unfold async_update_device_registry. run.
  destruct (dict_find (ConfigEntry.options (config_entry (self w)))
              CONF_HOST) as [host |]; [| reflexivity].
  intros Hh. unfold set_of_pair. rewrite Hh. reflexivity.
Qed.

(** X19.  Before any setup the registration goes through all the same: the
    miniserver entry is created with [None] as serial number, name and
    software version, and the label [get_miniserver_type] gives for
    [None]. *)
Theorem registry_before_setup (w : World) (host : PyVal) :
  lox_config (self w) = None ->
  dict_find (ConfigEntry.options (config_entry (self w))) CONF_HOST
  = Some host ->
  hashable host = true ->
  register w
  = (Ok VNone,
     mkWorld (self w)
       (calls w
        ++ [Call_async_get_or_create
              (mkDeviceEntry (ConfigEntry.entry_id (config_entry (self w)))
                 [(CONNECTION_NETWORK_MAC, host)] []
                 VNone VNone VNone VNone);
            Call_async_get_or_create
              (mkDeviceEntry (ConfigEntry.entry_id (config_entry (self w)))
                 [] [(DOMAIN, VNone)] VNone (VStr "Loxone") VNone
                 (get_miniserver_type MINISERVER_TYPES UNKNOWN_TYPE
                    VNone))])).
Proof.
  intros Hnone Hhost Hh.
  unfold async_update_device_registry. run.
  rewrite Hhost. unfold set_of_pair. rewrite Hh. run.
  unfold serial, name, software_version, miniserver_type, lox_config_json.
  rewrite Hnone. run. cbn. rewrite <- app_assoc. reflexivity.
Qed.

End RegistryMore.

(** ** Signals and lookups *)

Lemma async_signal_new_device_run (ms : MiniServer) (device_type : PyVal) :
  async_signal_new_device ms device_type
  = match str (miniserverid ms) with
    | Raise e => Raise e
    | Ok text =>
        subscript
          [(NEW_GROUP, VStr ("loxone_new_group_" ++ text));
           (NEW_LIGHT, VStr ("loxone_new_light_" ++ text));
           (NEW_SCENE, VStr ("loxone_new_scene_" ++ text));
           (NEW_SENSOR, VStr ("loxone_new_sensor_" ++ text));
           (NEW_COVERS, VStr ("loxone_new_cover_" ++ text))]%string
          device_type
    end.
Proof.
  unfold async_signal_new_device, signal.
  destruct (str (miniserverid ms)); reflexivity.
Qed.

Lemma append_same_prefix (p a b : string) :
  (p ++ a)%string = (p ++ b)%string -> a = b.
Proof.
  induction p as [| c p IH]; cbn; intros H; [exact H |].
  injection H as H. now apply IH.
Qed.

Lemma signal_cases (ms : MiniServer) (device_type v : PyVal) :
  async_signal_new_device ms device_type = Ok v ->
  exists kind prefix text,
    In (kind, prefix)
       [(NEW_GROUP, "loxone_new_group_"); (NEW_LIGHT, "loxone_new_light_");
        (NEW_SCENE, "loxone_new_scene_"); (NEW_SENSOR, "loxone_new_sensor_");
        (NEW_COVERS, "loxone_new_cover_")]
    /\ device_type = VStr kind
    /\ str (miniserverid ms) = Ok text
    /\ v = VStr (prefix ++ text).
Proof.
  rewrite async_signal_new_device_run.
  destruct (str (miniserverid ms)) as [text | e]; [| discriminate].
  unfold subscript.
  destruct device_type as [| | | s | |]; try discriminate.
  destruct (String.eqb_spec NEW_GROUP s) as [<- | _].
  { intros [= <-]. exists NEW_GROUP, "loxone_new_group_", text.
    cbn; tauto. }
  destruct (String.eqb_spec NEW_LIGHT s) as [<- | _].
  { intros [= <-]. exists NEW_LIGHT, "loxone_new_light_", text.
    cbn; tauto. }
  destruct (String.eqb_spec NEW_SCENE s) as [<- | _].
  { intros [= <-]. exists NEW_SCENE, "loxone_new_scene_", text.
    cbn; tauto. }
  destruct (String.eqb_spec NEW_SENSOR s) as [<- | _].
  { intros [= <-]. exists NEW_SENSOR, "loxone_new_sensor_", text.
    cbn; tauto. }
  destruct (String.eqb_spec NEW_COVERS s) as [<- | _].
  { intros [= <-]. exists NEW_COVERS, "loxone_new_cover_", text.
    cbn; tauto. }
  discriminate.
Qed.

(** X20.  [async_signal_new_device] knows five device types and no other:
    it returns a signal exactly when the device type is one of
    ["groups"], ["lights"], ["scenes"], ["sensors"] and ["covers"] and
    the miniserver's id has a text to put into the signal; it raises for
    everything else. *)
Theorem async_signal_new_device_known (ms : MiniServer)
  (device_type : PyVal) :
  (exists v, async_signal_new_device ms device_type = Ok v)
  <-> In device_type
        (map VStr [NEW_GROUP; NEW_LIGHT; NEW_SCENE; NEW_SENSOR; NEW_COVERS])
      /\ exists text, str (miniserverid ms) = Ok text.
Proof.
  split.
  - intros [v Hv].
    destruct (signal_cases _ _ _ Hv) as (kind & prefix & text & Hin & -> & Hid & _).
    split; [| now exists text].
    cbn [In] in Hin. cbn [map In].
    destruct Hin as [E | [E | [E | [E | [E | []]]]]];
      injection E as <- _; tauto.
  - intros [Hin [text Hid]]. rewrite async_signal_new_device_run, Hid.
    cbn [map In] in Hin.
    destruct Hin as [<- | [<- | [<- | [<- | [<- | []]]]]];
      eexists; reflexivity.
Qed.

(** X21.  The signals of one miniserver tell the device types apart, and the
    signals of one device type tell apart miniservers whose ids print
    differently. *)
Theorem async_signal_new_device_distinct (ms ms' : MiniServer)
  (device_type device_type' : PyVal) (v : PyVal) :
  async_signal_new_device ms device_type = Ok v ->
  (async_signal_new_device ms device_type' = Ok v ->
   device_type' = device_type)
  /\ (async_signal_new_device ms' device_type = Ok v ->
      str (miniserverid ms') = str (miniserverid ms)).
Proof.
  intros H.
  destruct (signal_cases _ _ _ H)
    as (kind & prefix & text & Hin & -> & Hid & ->).
  split; intros H';
    destruct (signal_cases _ _ _ H')
      as (kind' & prefix' & text' & Hin' & Hk & Hid' & Hv);
    cbn [In] in Hin, Hin';
    destruct Hin as [E | [E | [E | [E | [E | []]]]]];
    injection E as <- <-;
    destruct Hin' as [E | [E | [E | [E | [E | []]]]]];
    injection E as <- <-;
    first [ discriminate Hk
          | (cbn [append] in Hv; discriminate Hv)
          | exact Hk
          | (apply (f_equal (fun v => match v with
                                      | VStr s => s
                                      | _ => EmptyString
                                      end)) in Hv;
             cbn beta iota in Hv; apply append_same_prefix in Hv;
             now rewrite Hid, Hid', Hv) ].
Qed.

(** X22.  [get_miniserver_from_config] gives [None] exactly for an empty
    mapping; otherwise it gives the first entry's miniserver, the one
    [get_miniserver_from_config_entry] finds under that entry's id. *)
Theorem get_miniserver_from_config_first (A : Type) (DOMAIN : string)
  (config : list (string * A)) :
  (get_miniserver_from_config config = None <-> config = [])
  /\ (forall id ms rest other,
        config = (id, ms) :: rest ->
        get_miniserver_from_config config = Some ms
        /\ get_miniserver_from_config_entry DOMAIN [(DOMAIN, config)]
             (ConfigEntry.mk other other (VStr id) VNone)
           = Ok ms).
Proof.
  split.
  - destruct config as [| [id ms] rest]; cbn.
    + tauto.
    + rewrite String.eqb_refl. split; discriminate.
  - intros id ms rest other ->.
    unfold get_miniserver_from_config_entry, subscript. cbn.
    rewrite !String.eqb_refl. cbn. rewrite ?String.eqb_refl.
    split; reflexivity.
Qed.

(** ** The software version, read back *)

Lemma digits_no_dot (d : Decimal.uint) :
  has_char "."%char (NilEmpty.string_of_uint d) = false.
Proof. induction d; cbn; trivial. Qed.

Lemma decimal_no_dot (z : Z) : has_char "."%char (decimal z) = false.
Proof.
  unfold decimal, NilZero.string_of_int, NilZero.string_of_uint.
  destruct (Z.to_int z) as [d | d]; destruct d; cbn;
    trivial; apply digits_no_dot.
Qed.

Lemma int_of_text_decimal (z : Z) : int_of_text (decimal z) = Some z.
Proof.
  unfold int_of_text, decimal.
  rewrite NilZero.isi.
  - cbn. now rewrite DecimalZ.of_to.
  - destruct z; cbn; try discriminate.
    intros [= H]. now apply DecimalPos.Unsigned.to_uint_nonnil in H.
  - destruct z; cbn; try discriminate.
    intros [= H]. now apply DecimalPos.Unsigned.to_uint_nonnil in H.
Qed.

Lemma split_dots_plain (p : string) :
  has_char "."%char p = false -> split_dots p = [p].
Proof.
  induction p as [| c p IH]; cbn; [reflexivity |].
  intros H. apply orb_false_elim in H as [Hc Hp].
  rewrite Hc, (IH Hp). reflexivity.
Qed.

Lemma split_dots_part (p r : string) :
  has_char "."%char p = false ->
  split_dots (p ++ String "."%char r) = p :: split_dots r.
Proof.
  induction p as [| c p IH]; cbn; [reflexivity |].
  intros H. apply orb_false_elim in H as [Hc Hp].
  rewrite Hc, (IH Hp). reflexivity.
Qed.

Lemma split_dots_join (parts : list string) :
  parts <> [] ->
  Forall (fun p => has_char "."%char p = false) parts ->
  split_dots (join "." parts) = parts.
Proof.
  induction parts as [| p rest IH]; [congruence |].
  intros _ Hall. inversion Hall as [| ? ? Hp Hrest]; subst.
  destruct rest as [| q rest].
  - cbn. now apply split_dots_plain.
  - change (join "." (p :: q :: rest))
      with (p ++ String "."%char (join "." (q :: rest)))%string.
    rewrite (split_dots_part _ _ Hp), IH; [reflexivity | discriminate |].
    exact Hrest.
Qed.

Lemma map_Some_inj (A : Type) (a b : list A) :
  map Some a = map Some b -> a = b.
Proof.
  revert b. induction a as [| x a IH]; intros [| y b]; cbn;
    try discriminate; [reflexivity |].
  intros [= -> H]. now rewrite (IH b H).
Qed.

Lemma version_parts (comps : list Z) :
  comps <> [] ->
  map int_of_text (split_dots (join "." (map decimal comps)))
  = map Some comps.
Proof.
  intros Hne. rewrite split_dots_join.
  - rewrite map_map. apply map_ext. apply int_of_text_decimal.
  - destruct comps; [congruence | discriminate].
  - apply Forall_forall. intros p Hin. apply in_map_iff in Hin.
    destruct Hin as (z & <- & _). apply decimal_no_dot.
Qed.

Lemma traverse_ints_text (comps : list Z) (parts : list string) :
  traverse str (map VInt comps) = Ok parts -> parts = map decimal comps.
Proof.
  revert parts. induction comps as [| z rest IH]; cbn; intros parts.
  - now intros [= <-].
  - destruct (str_int z) as [text | e] eqn:Hz; cbn; [| discriminate].
    cbn in IH.
    destruct (traverse str (map VInt rest)) as [texts | e]; cbn;
      [| discriminate].
    intros [= <-]. now rewrite (str_int_text z text Hz), (IH texts eq_refl).
Qed.

Lemma version_text (ms : MiniServer) (app : LoxApp.t)
  (d : list (string * PyVal)) (comps : list Z) (text : string) :
  lox_config ms = Some app ->
  LoxApp.json app = VDict d ->
  dict_find d "softwareVersion" = Some (VList (map VInt comps)) ->
  software_version ms = Ok (VStr text) ->
  text = join "." (map decimal comps).
Proof.
  intros Happ Hdoc Hver.
  rewrite software_version_joined. unfold joined_version, document.
  rewrite Happ. cbn. rewrite Hdoc. cbn. rewrite Hver.
  destruct (traverse str (map VInt comps)) as [parts | e] eqn:Hparts;
    [| discriminate].
  intros [= <-]. now rewrite (traverse_ints_text comps parts Hparts).
Qed.

(** X23.  The version text can be read back: when the document holds a
    non-empty list of integers, whatever text [software_version] gives
    splits at the dots into parts that read, each as a decimal number,
    as the list again; and it gives a text when no integer has more
    digits than [str] turns into text. *)
Theorem software_version_reads_back (ms : MiniServer) (app : LoxApp.t)
  (d : list (string * PyVal)) (comps : list Z) :
  lox_config ms = Some app ->
  LoxApp.json app = VDict d ->
  dict_find d "softwareVersion" = Some (VList (map VInt comps)) ->
  comps <> [] ->
  (forall text,
      software_version ms = Ok (VStr text) ->
      map int_of_text (split_dots text) = map Some comps)
  /\ (forallb renderable comps = true ->
      exists text, software_version ms = Ok (VStr text)).
Proof.
  intros Happ Hdoc Hver Hne. split.
  - intros text Htext.
    rewrite (version_text ms app d comps text Happ Hdoc Hver Htext).
    now apply version_parts.
  - intros Hfit. exists (join "." (map decimal comps)).
    rewrite software_version_joined. unfold joined_version, document.
    rewrite Happ. cbn. rewrite Hdoc. cbn. rewrite Hver.
    now rewrite (traverse_str_ints comps Hfit).
Qed.

Lemma join_empty (comps : list Z) :
  join "." (map decimal comps) = EmptyString -> comps = [].
Proof.
  destruct comps as [| z rest]; [reflexivity |].
  intros H. exfalso.
  assert (Hz : decimal z <> EmptyString).
  { intros E. pose proof (int_of_text_decimal z) as Hr.
    rewrite E in Hr. discriminate. }
  destruct rest as [| y rest]; cbn in H; [now apply Hz |].
  destruct (decimal z); [now apply Hz | discriminate].
Qed.

(** X24.  Two documents whose integer version lists differ never show
    the same version text: when [software_version] gives one text for
    both, the lists are the same. *)
Theorem software_version_tells_apart (ms ms' : MiniServer)
  (app app' : LoxApp.t) (d d' : list (string * PyVal))
  (comps comps' : list Z) (text : string) :
  lox_config ms = Some app -> LoxApp.json app = VDict d ->
  dict_find d "softwareVersion" = Some (VList (map VInt comps)) ->
  lox_config ms' = Some app' -> LoxApp.json app' = VDict d' ->
  dict_find d' "softwareVersion" = Some (VList (map VInt comps')) ->
  software_version ms = Ok (VStr text) ->
  software_version ms' = Ok (VStr text) ->
  comps = comps'.
Proof.
  intros Happ Hdoc Hver Happ' Hdoc' Hver' Htext Htext'.
  pose proof (version_text ms app d comps text Happ Hdoc Hver Htext)
    as Hsame.
  pose proof (version_text ms' app' d' comps' text Happ' Hdoc' Hver' Htext')
    as Hsame'.
  rewrite Hsame in Hsame'. clear Htext Htext' Hsame.
  destruct comps as [| z rest].
  - symmetry. apply join_empty. now rewrite <- Hsame'.
  - destruct comps' as [| z' rest'].
    + apply join_empty. exact Hsame'.
    + apply map_Some_inj.
      rewrite <- (version_parts (z :: rest)) by discriminate.
      rewrite <- (version_parts (z' :: rest')) by discriminate.
      now rewrite Hsame'.
Qed.

(** X25.  An empty version list gives the empty text, not [None]; a version
    entry that is an empty text or an empty dict does so too. *)
Theorem software_version_of_nothing (ms : MiniServer) (app : LoxApp.t)
  (d : list (string * PyVal)) (entry : PyVal) :
  lox_config ms = Some app ->
  LoxApp.json app = VDict d ->
  dict_find d "softwareVersion" = Some entry ->
  In entry [VList []; VStr EmptyString; VDict []] ->
  software_version ms = Ok (VStr EmptyString).
Proof.
  intros Happ Hdoc Hver Hin.
  rewrite software_version_joined. unfold joined_version, document.
  rewrite Happ. cbn. rewrite Hdoc. cbn. rewrite Hver.
  cbn [In] in Hin. destruct Hin as [<- | [<- | [<- | []]]]; reflexivity.
Qed.

(** ** Instances *)

Lemma async_setup_afresh_after_use :
  fst (async_setup Sample.env More.used)
  = fst (async_setup Sample.env Sample.fresh)
  /\ lox_config (self (snd (async_setup Sample.env More.used)))
     = lox_config (self (snd (async_setup Sample.env Sample.fresh))).
Proof.
  destruct (async_setup_starts_afresh Sample.env Sample.fresh More.used
              eq_refl eq_refl eq_refl) as (Hres & _ & Hlox & _).
  split; assumption.
Defined.

Lemma async_setup_on_bare_entry :
  fst (async_setup Sample.env More.bare) = Raise Exn.KeyError.
Proof.
  exact (proj1 (async_setup_missing_option Sample.env More.bare eq_refl)).
Defined.

Lemma async_setup_404_logs_once :
  errors_logged
    (calls (snd (async_setup (Sample.env_with (Ok (VInt 404)) (Ok VNone))
                   Sample.fresh)))
  = 1%nat.
Proof.
  destruct (async_setup_three_ways
              (Sample.env_with (Ok (VInt 404)) (Ok VNone)) Sample.fresh
              eq_refl) as [[_ Hlog] | [[Hres _] | (e & Hres & _)]].
  - exact Hlog.
  - discriminate Hres.
  - discriminate Hres.
Defined.

Lemma async_setup_drops_callback :
  option_map LoxWs.message_call_back (api (self More.used)) = Some (Some 5%nat)
  /\ option_map LoxWs.message_call_back
       (api (self (snd (async_setup Sample.env More.used))))
     = Some None.
Proof.
  split; [reflexivity |].
  destruct (proj1 (async_setup_transport Sample.env More.used eq_refl)
              (VInt 200) eq_refl (or_introl eq_refl)) as [Hapi _].
  rewrite Hapi. reflexivity.
Defined.

Lemma async_setup_init_connection_reset :
  fst (async_setup
         (Sample.env_with (Ok (VInt 200)) (Raise Exn.ConnectionResetError))
         Sample.fresh)
  = Ok (VBool false).
Proof.
  rewrite (async_setup_init_raises
             (Sample.env_with (Ok (VInt 200))
                (Raise Exn.ConnectionResetError))
             Sample.fresh (VInt 200) Exn.ConnectionResetError
             eq_refl eq_refl (or_introl eq_refl) eq_refl).
  reflexivity.
Defined.

Lemma accessors_after_failed_setup :
  fst (async_setup (Sample.env_with (Ok (VInt 404)) (Ok VNone)) Sample.fresh)
  = Ok (VBool false)
  /\ serial (self (snd (async_setup
                          (Sample.env_with (Ok (VInt 404)) (Ok VNone))
                          Sample.fresh)))
     = Ok (VStr "504F94A00001").
Proof.
  split; [reflexivity |].
  destruct (accessors_after_setup
              (Sample.env_with (Ok (VInt 404)) (Ok VNone)) Sample.fresh
              eq_refl) as (_ & Hserial & _).
  rewrite Hserial. reflexivity.
Defined.

Lemma async_set_callback_twice :
  option_map LoxWs.message_call_back
    (api (self (snd ((async_set_callback 1%nat ;;;
                      async_set_callback 2%nat) Sample.ready))))
  = Some (Some 2%nat).
Proof.
  destruct (async_set_callback_replaces Sample.ready Sample.ws 1%nat 2%nat
              eq_refl) as (_ & Hslot & _).
  exact Hslot.
Defined.

Lemma start_after_sample_setup :
  fst (start_loxone Sample.env Sample.stopping
         (snd (async_setup Sample.env Sample.fresh)))
  = Ok VNone.
Proof.
  destruct (start_after_setup Sample.env Sample.stopping Sample.fresh
              eq_refl eq_refl) as [_ Hstart].
  rewrite Hstart. reflexivity.
Defined.

Lemma service_call_before_setup :
  handle_websocket_command Sample.ATTR_UUID Sample.ATTR_VALUE Sample.DEFAULT
    Sample.env (ServiceCall.mk (VDict [])) Sample.fresh
  = (Raise Exn.AttributeError, Sample.fresh).
Proof.
  exact (proj1 (commands_need_transport
                  Sample.ATTR_CODE Sample.ATTR_UUID Sample.ATTR_VALUE
                  Sample.DEFAULT Sample.SECUREDSENDDOMAIN Sample.SENDDOMAIN
                  Sample.env Sample.fresh [] eq_refl)).
Defined.

Lemma stop_event_ignored :
  listen_loxone_send Sample.ATTR_CODE Sample.ATTR_UUID Sample.ATTR_VALUE
    Sample.DEFAULT Sample.SECUREDSENDDOMAIN Sample.SENDDOMAIN Sample.env
    Sample.stopping Sample.fresh
  = (Ok VNone, Sample.fresh).
Proof.
  exact (listen_loxone_send_ignores
           Sample.ATTR_CODE Sample.ATTR_UUID Sample.ATTR_VALUE
           Sample.DEFAULT Sample.SECUREDSENDDOMAIN Sample.SENDDOMAIN
           Sample.env Sample.stopping Sample.fresh eq_refl).
Defined.

Lemma plain_on_offline :
  fst (listen_loxone_send Sample.ATTR_CODE Sample.ATTR_UUID
         Sample.ATTR_VALUE Sample.DEFAULT Sample.SECUREDSENDDOMAIN
         Sample.SENDDOMAIN More.env_offline Sample.plain_on Sample.ready)
  = Raise Exn.ConnectionResetError.
Proof.
  change Sample.plain_on
    with (Event.mk Sample.SENDDOMAIN
            (VDict [(Sample.ATTR_UUID, VStr "abc");
                    (Sample.ATTR_VALUE, VStr "on")])).
  rewrite (listen_loxone_send_lets_through
             Sample.ATTR_CODE Sample.ATTR_UUID Sample.ATTR_VALUE
             Sample.DEFAULT Sample.SECUREDSENDDOMAIN Sample.SENDDOMAIN
             More.env_offline Sample.ready Sample.ws
             [(Sample.ATTR_UUID, VStr "abc"); (Sample.ATTR_VALUE, VStr "on")]
             Exn.ConnectionResetError eq_refl eq_refl eq_refl).
  reflexivity.
Defined.

Lemma repeated_commands_all_sent :
  sends (calls (snd (deliver Sample.ATTR_CODE Sample.ATTR_UUID
                       Sample.ATTR_VALUE Sample.DEFAULT
                       Sample.SECUREDSENDDOMAIN Sample.SENDDOMAIN
                       Sample.env
                       [Sample.plain_on; Sample.plain_on] Sample.ready)))
  = [Call_send_websocket_command (VStr "abc") (VStr "on");
     Call_send_websocket_command (VStr "abc") (VStr "on")].
Proof.
  destruct (plain_commands_forwarded_in_order
              Sample.ATTR_CODE Sample.ATTR_UUID Sample.ATTR_VALUE
              Sample.DEFAULT Sample.SECUREDSENDDOMAIN Sample.SENDDOMAIN
              Sample.env Sample.ready Sample.ws
              [[(Sample.ATTR_UUID, VStr "abc"); (Sample.ATTR_VALUE, VStr "on")];
               [(Sample.ATTR_UUID, VStr "abc"); (Sample.ATTR_VALUE, VStr "on")]])
    as [_ Hsends].
  - reflexivity.
  - split; simpl; intros; discriminate.
  - exact Hsends.
Defined.

Lemma registry_with_list_serial :
  async_update_device_registry Sample.DOMAIN Sample.MINISERVER_TYPES
    Sample.UNKNOWN_TYPE More.bad_serial
  = (Raise Exn.TypeError,
     mkWorld (self More.bad_serial)
       [Call_async_get_or_create
          (mkDeviceEntry (VStr "entry-1")
             [(CONNECTION_NETWORK_MAC, VStr "192.168.1.2")] []
             VNone VNone VNone VNone)]).
Proof.
  exact (registry_stops_at_unhashable_serial
           Sample.DOMAIN Sample.MINISERVER_TYPES Sample.UNKNOWN_TYPE
           More.bad_serial (VStr "192.168.1.2") eq_refl eq_refl eq_refl).
Defined.

Lemma registry_on_bare_entry :
  async_update_device_registry Sample.DOMAIN Sample.MINISERVER_TYPES
    Sample.UNKNOWN_TYPE More.bare
  = (Raise Exn.KeyError, More.bare).
Proof.
  exact (registry_needs_host Sample.DOMAIN Sample.MINISERVER_TYPES
           Sample.UNKNOWN_TYPE More.bare).
Defined.

Lemma registry_on_fresh :
  fst (async_update_device_registry Sample.DOMAIN Sample.MINISERVER_TYPES
         Sample.UNKNOWN_TYPE Sample.fresh)
  = Ok VNone.
Proof.
  rewrite (registry_before_setup
             Sample.DOMAIN Sample.MINISERVER_TYPES Sample.UNKNOWN_TYPE
             Sample.fresh (VStr "192.168.1.2") eq_refl eq_refl eq_refl).
  reflexivity.
Defined.

Lemma signal_for_covers :
  exists v, async_signal_new_device (self More.bare) (VStr "covers") = Ok v.
Proof.
  apply (proj2 (async_signal_new_device_known (self More.bare)
                  (VStr "covers"))).
  split.
  - cbn. tauto.
  - exists "id-1". reflexivity.
Defined.

Lemma signal_same_id :
  str (miniserverid (self Sample.ready))
  = str (miniserverid (self Sample.fresh)).
Proof.
  apply (proj2 (async_signal_new_device_distinct
                  (self Sample.fresh) (self Sample.ready)
                  (VStr NEW_SCENE) VNone
                  (VStr "loxone_new_scene_504F94A00001") eq_refl)).
  reflexivity.
Defined.

Lemma first_of_two_miniservers :
  get_miniserver_from_config [("a", 1%nat); ("b", 2%nat)] = Some 1%nat.
Proof.
  exact (proj1 (proj2 (get_miniserver_from_config_first nat Sample.DOMAIN
                         [("a", 1%nat); ("b", 2%nat)])
                  "a" 1%nat [("b", 2%nat)] [] eq_refl)).
Defined.

Lemma sample_version_reads_back :
  map int_of_text (split_dots "10.3.2") = [Some 10; Some 3; Some 2].
Proof.
  apply (proj1 (software_version_reads_back
                  (with_document no_entry Sample.doc)
                  (LoxApp.mk VNone VNone VNone VNone Sample.doc VNone)
                  [("msInfo", VDict [("serialNr", VStr "504F94A00001");
                                     ("msName", VStr "Home");
                                     ("miniserverType", VInt 2)]);
                   ("softwareVersion", VList [VInt 10; VInt 3; VInt 2])]
                  [10; 3; 2] eq_refl eq_refl eq_refl
                  ltac:(discriminate))).
  reflexivity.
Defined.

Lemma sample_version_tells :
  [10; 3; 2] = [10; 3; 2].
Proof.
  apply (software_version_tells_apart
           (with_document no_entry
              (VDict [("softwareVersion", VList [VInt 10; VInt 3; VInt 2])]))
           (with_document Sample.entry
              (VDict [("softwareVersion", VList [VInt 10; VInt 3; VInt 2]);
                      ("msInfo", VNone)]))
           (LoxApp.mk VNone VNone VNone VNone
              (VDict [("softwareVersion", VList [VInt 10; VInt 3; VInt 2])])
              VNone)
           (LoxApp.mk VNone VNone VNone VNone
              (VDict [("softwareVersion", VList [VInt 10; VInt 3; VInt 2]);
                      ("msInfo", VNone)])
              VNone)
           [("softwareVersion", VList [VInt 10; VInt 3; VInt 2])]
           [("softwareVersion", VList [VInt 10; VInt 3; VInt 2]);
            ("msInfo", VNone)]
           [10; 3; 2] [10; 3; 2] "10.3.2"); reflexivity.
Defined.

Lemma empty_version_list :
  software_version
    (with_document no_entry (VDict [("softwareVersion", VList [])]))
  = Ok (VStr EmptyString).
Proof.
  apply (software_version_of_nothing
           (with_document no_entry (VDict [("softwareVersion", VList [])]))
           (LoxApp.mk VNone VNone VNone VNone
              (VDict [("softwareVersion", VList [])]) VNone)
           [("softwareVersion", VList [])] (VList [])); try reflexivity.
  cbn. tauto.
Defined.
